(** * AWS-Youtube-Analytics: the JSON-to-Parquet ingest lambda

    A shallow embedding of [src/lambda_function.py] and the properties of
    its schema reconciliation, casting and orchestration code.

    Conventions of the model.
    - A Python [str] is a Rocq [string].
    - A pandas cell that [pd.json_normalize] can produce from a JSON
      document is a [value]; a cell of a frame after casting is a [cell]
      (a raw value, or one of the cells only a cast produces).
    - A finite float is given by a rational: its exact value or, for a
      float read from a decimal text of at most 15 digits, that decimal,
      which is integral exactly when the float is.
    - pandas is modelled exactly on tame cells (nulls, bools, floats, ints
      up to 2^53 in size, and texts that are a short plain decimal or
      surely no number); what it does on the other cells is left open.
    - Exceptions are the constructors of [exn]; code that can raise returns
      a [result]; code that talks to S3, Glue or stdout is a function of
      the [world]. *)

From Stdlib Require Import ZArith QArith_base Qreduction String Ascii List Bool Lia.
From stdpp Require Import base option list gmap strings pretty.
Import ListNotations.

Local Open Scope string_scope.
Local Open Scope Z_scope.
Local Open Scope list_scope.

(** ** Exceptions and results *)

Inductive exn : Type :=
| IndexError
| KeyError (k : string)
| TypeError
| ValueError
| OverflowError
| ArrowInvalid
| EntityNotFoundException
| AlreadyExistsException
| NoSuchBucket
| NoSuchKey.

Inductive result (A : Type) : Type :=
| Ok (a : A)
| Err (e : exn).
Arguments Ok {A} a.
Arguments Err {A} e.

Definition rbind {A B} (r : result A) (k : A -> result B) : result B :=
  match r with
  | Ok a => k a
  | Err e => Err e
  end.

Fixpoint rmapM {A B} (f : A -> result B) (l : list A) : result (list B) :=
  match l with
  | [] => Ok []
  | x :: l' => rbind (f x) (fun y => rbind (rmapM f l') (fun ys => Ok (y :: ys)))
  end.

(** ** Cells of a pandas frame *)

(** What [pd.json_normalize] leaves in a cell: Python [None] (an explicit
    JSON null in a non-numeric column), the float NaN (a key that is
    missing from a row, or a null in a numeric column), an int, a finite
    float, a bool or a str. *)
Inductive value : Type :=
| VNone
| VNaN
| VInt (z : Z)
| VFloat (q : Q)
| VBool (b : bool)
| VStr (s : string).

(** A cell after [cast_dataframe_to_glue_schema]: an untouched or
    re-typed raw value, [pd.NA] of the nullable [Int64] dtype, [NaT], a
    [datetime64] timestamp in nanoseconds since the epoch, or a float
    infinity (which a text can be read as). *)
Inductive cell : Type :=
| Raw (v : value)
| NA
| NaT
| Timestamp (ns : Z)
| Inf (negative : bool).

(** [pd.isna] on one cell. *)
Definition isna (c : cell) : bool :=
  match c with
  | Raw VNone | Raw VNaN | NA | NaT => true
  | _ => false
  end.

Definition DataFrame (A : Type) : Type := list (string * list A).

(** [df.columns] *)
Definition columns {A} (df : DataFrame A) : list string := map fst df.

(** [df[column]], for a [column in df.columns]. *)
Fixpoint get_column {A} (df : DataFrame A) (column : string) : option (list A) :=
  match df with
  | [] => None
  | (name, col) :: df' =>
      if String.eqb name column then Some col else get_column df' column
  end.

(** [df[column] = new], for a [column in df.columns]. *)
Fixpoint set_column {A} (df : DataFrame A) (column : string) (new : list A)
  : DataFrame A :=
  match df with
  | [] => []
  | (name, col) :: df' =>
      if String.eqb name column then (name, new) :: df'
      else (name, col) :: set_column df' column new
  end.

(** ** Numeric literals: [pd.to_numeric(..., errors='coerce')] *)

Inductive number : Type :=
| NInt (z : Z)
| NFloat (q : Q).

Definition digit_of (c : ascii) : option Z :=
  let n := Z.of_nat (nat_of_ascii c) in
  if (48 <=? n) && (n <=? 57) then Some (n - 48) else None.

Fixpoint digits_value (acc : Z) (s : string) : option Z :=
  match s with
  | EmptyString => Some acc
  | String c s' =>
      match digit_of c with
      | Some d => digits_value (10 * acc + d) s'
      | None => None
      end
  end.

(** The text before the first ['.'] and, when there is one, the text after it. *)
Fixpoint split_dot (s : string) : string * option string :=
  match s with
  | EmptyString => (EmptyString, None)
  | String c s' =>
      if Ascii.eqb c "."%char then (EmptyString, Some s')
      else let '(a, b) := split_dot s' in (String c a, b)
  end.

Definition parse_unsigned (s : string) : option number :=
  if (15 <? String.length s)%nat then None else
  match split_dot s with
  | (ip, None) =>
      if String.eqb ip "" then None
      else match digits_value 0 ip with
           | Some z => Some (NInt z)
           | None => None
           end
  | (ip, Some fp) =>
      if String.eqb ip "" && String.eqb fp "" then None
      else match digits_value 0 (ip ++ fp) with
           | Some m =>
               Some (NFloat (Qred (Qmake m (Z.to_pos (10 ^ Z.of_nat (String.length fp))))))
           | None => None
           end
  end.

Definition negate (n : number) : number :=
  match n with
  | NInt z => NInt (- z)
  | NFloat q => NFloat (Qopp q)
  end.

(** Plain decimal literals of at most 15 characters after the sign: an
    optional sign, digits, and an optional fraction ("12", "-3", "12.5",
    ".5", "5."). pandas reads these exactly: a literal without ['.'] as
    that int, one with a ['.'] as the float nearest to the decimal. *)
Definition parse_number (s : string) : option number :=
  match s with
  | String "-" s' => option_map negate (parse_unsigned s')
  | String "+" s' => parse_unsigned s'
  | _ => parse_unsigned s
  end.

Definition is_letter (c : ascii) : bool :=
  let n := N_of_ascii c in
  ((65 <=? n)%N && (n <=? 90)%N) || ((97 <=? n)%N && (n <=? 122)%N).

(** The letters of the texts that pandas reads as numbers: the exponent
    mark, "inf", "infinity" and "nan", in either case. *)
Definition numeric_letter (c : ascii) : bool :=
  existsb (Ascii.eqb c) (list_ascii_of_string "eEiInNfFtTyYaA").

(** A text with a letter that no numeric text has: surely no number. *)
Fixpoint not_numeric (s : string) : bool :=
  match s with
  | EmptyString => false
  | String c t => (is_letter c && negb (numeric_letter c)) || not_numeric t
  end.

(** The cells on which the numeric casts are modelled exactly. An int of
    size at most 2^53 is the same number as an int64 and as a float64; a
    text is tame when it is a short plain decimal or surely no number.
    Texts such as "1e3", " 12 " or "inf", and larger numbers, are not. *)
Definition tame (v : value) : bool :=
  match v with
  | VInt z => Z.abs z <=? 2 ^ 53
  | VFloat q => Z.abs (Qnum q) <=? 2 ^ 53 * Zpos (Qden q)
  | VStr s => match parse_number s with
              | Some _ => true
              | None => not_numeric s
              end
  | _ => true
  end.

(** One tame cell under [pd.to_numeric(errors='coerce')]; [None] is the
    NaN that a null or a text that is no number becomes. *)
Definition to_numeric_value (v : value) : option number :=
  match v with
  | VNone | VNaN => None
  | VInt z => Some (NInt z)
  | VFloat q => Some (NFloat q)
  | VBool b => Some (NInt (if b then 1 else 0))
  | VStr s => parse_number s
  end.

Definition to_numeric (col : list value) : list (option number) :=
  map to_numeric_value col.

Definition is_integral (q : Q) : bool :=
  Z.eqb (Z.modulo (Qnum q) (Zpos (Qden q))) 0.

(** One tame cell under [.astype('Int64')]: NaN becomes [pd.NA], an
    integral float its integer, and a float with a fractional part makes
    pandas raise [TypeError] ("cannot safely cast non-equivalent float64 to
    int64") for the whole column. *)
Definition astype_Int64_value (n : option number) : result cell :=
  match n with
  | None => Ok NA
  | Some (NInt z) => Ok (Raw (VInt z))
  | Some (NFloat q) =>
      if is_integral q then Ok (Raw (VInt (Z.div (Qnum q) (Zpos (Qden q)))))
      else Err TypeError
  end.

Definition astype_Int64 (col : list (option number)) : result (list cell) :=
  rmapM astype_Int64_value col.

(** One tame cell under [.astype(float)]. *)
Definition astype_float_value (n : option number) : cell :=
  match n with
  | None => Raw VNaN
  | Some (NInt z) => Raw (VFloat (inject_Z z))
  | Some (NFloat q) => Raw (VFloat q)
  end.

(** Python truthiness of one cell, as [.astype(bool)] applies it:
    [bool(None)] is [False], [bool(float('nan'))] is [True]. *)
Definition truthy (v : value) : bool :=
  match v with
  | VNone => false
  | VNaN => true
  | VInt z => negb (Z.eqb z 0)
  | VFloat q => negb (Z.eqb (Qnum q) 0)
  | VBool b => b
  | VStr s => negb (String.eqb s "")
  end.

Definition astype_bool (col : list value) : list cell :=
  map (fun v => Raw (VBool (truthy v))) col.


(** ** The world outside the lambda: S3, the Glue catalog, stdout *)

(** The [TableInput] of a Glue table, with the fields the lambda sets. *)
Record Table : Type := {
  Name : string;
  Columns : list (string * string);
  Location : string;
  InputFormat : string;
  OutputFormat : string;
  Compressed : bool;
  SerializationLibrary : string;
  TableType : string
}.

(** The bytes of an S3 object, up to what the lambda does with them: a
    source document stands for the outcome of
    [pd.json_normalize(pd.read_json(body)['items'])] on it, and a Parquet
    file for the frame [to_parquet(buffer, index=False)] encoded. *)
Inductive s3_body : Type :=
| JsonDocument (items : result (DataFrame value))
| ParquetFile (df : DataFrame cell).

(** A line on stdout; [print(e)] and the schema in an f-string stay structured. *)
Inductive printed : Type :=
| Line (s : string)
| LineSchema (s : string) (glue_schema : list (string * string))
| LineExn (e : exn).

Record world : Type := {
  s3 : gmap string (gmap string s3_body);
  glue : gmap string (gmap string Table);
  stdout : list printed
}.

Definition with_s3 (w : world) (x : gmap string (gmap string s3_body)) : world :=
  {| s3 := x; glue := glue w; stdout := stdout w |}.
Definition with_glue (w : world) (x : gmap string (gmap string Table)) : world :=
  {| s3 := s3 w; glue := x; stdout := stdout w |}.
Definition with_stdout (w : world) (x : list printed) : world :=
  {| s3 := s3 w; glue := glue w; stdout := x |}.

(** A computation that may raise and may change the world. *)
Definition M (A : Type) : Type := world -> result A * world.

Definition ret {A} (a : A) : M A := fun w => (Ok a, w).
Definition raise {A} (e : exn) : M A := fun w => (Err e, w).
Definition bind {A B} (m : M A) (k : A -> M B) : M B :=
  fun w => match m w with
           | (Ok a, w') => k a w'
           | (Err e, w') => (Err e, w')
           end.
Definition lift {A} (r : result A) : M A := fun w => (r, w).

Notation "'let*' x ':=' m 'in' k" := (bind m (fun x => k))
  (at level 10, x pattern, m at level 100, k at level 200).
Notation "m ';;' k" := (bind m (fun _ => k))
  (at level 100, k at level 200, right associativity).

(** [try: m  except Exception as e: h e] *)
Definition try_except {A} (m : M A) (h : exn -> M A) : M A :=
  fun w => match m w with
           | (Ok a, w') => (Ok a, w')
           | (Err e, w') => h e w'
           end.

(** [try: m  except glue_client.exceptions.EntityNotFoundException: h] *)
Definition try_except_not_found {A} (m : M A) (h : M A) : M A :=
  try_except m (fun e => match e with
                         | EntityNotFoundException => h
                         | _ => raise e
                         end).

Definition print (l : printed) : M unit :=
  fun w => (Ok tt, with_stdout w (stdout w ++ [l])).

(** *** boto3 *)

Definition get_table (DatabaseName Name : string) : M Table :=
  fun w => match glue w !! DatabaseName with
           | None => (Err EntityNotFoundException, w)
           | Some tables =>
               match tables !! Name with
               | None => (Err EntityNotFoundException, w)
               | Some t => (Ok t, w)
               end
           end.

Definition create_table (DatabaseName : string) (TableInput : Table) : M unit :=
  fun w => match glue w !! DatabaseName with
           | None => (Err EntityNotFoundException, w)
           | Some tables =>
               match tables !! Name TableInput with
               | Some _ => (Err AlreadyExistsException, w)
               | None =>
                   (Ok tt, with_glue w (<[DatabaseName :=
                                           <[Name TableInput := TableInput]> tables]> (glue w)))
               end
           end.

Definition get_object (Bucket Key : string) : M s3_body :=
  fun w => match s3 w !! Bucket with
           | None => (Err NoSuchBucket, w)
           | Some objects =>
               match objects !! Key with
               | None => (Err NoSuchKey, w)
               | Some b => (Ok b, w)
               end
           end.

Definition put_object (Bucket Key : string) (Body : s3_body) : M unit :=
  fun w => match s3 w !! Bucket with
           | None => (Err NoSuchBucket, w)
           | Some objects =>
               (Ok tt, with_s3 w (<[Bucket := <[Key := Body]> objects]> (s3 w)))
           end.

(** *** The triggering event *)

Record s3_record : Type := {
  bucket_name : string;
  object_key : string
}.

Record event : Type := { Records : list s3_record }.

Record response : Type := {
  statusCode : Z;
  body : string
}.

Definition hex_of (c : ascii) : option N :=
  let n := N_of_ascii c in
  if (48 <=? n)%N && (n <=? 57)%N then Some (n - 48)%N
  else if (65 <=? n)%N && (n <=? 70)%N then Some (n - 55)%N
  else if (97 <=? n)%N && (n <=? 102)%N then Some (n - 87)%N
  else None.

(** [urllib.parse.unquote_plus] on the bytes of the key: ['+'] is a space
    and [%XX] the byte with that hexadecimal code; a ['%'] that no two
    hexadecimal digits follow stays. (Python then reads the bytes as
    UTF-8; a key is its UTF-8 bytes here.) *)
Fixpoint unquote_plus (s : string) : string :=
  match s with
  | EmptyString => EmptyString
  | String c t =>
      if Ascii.eqb c "+"%char then String " "%char (unquote_plus t)
      else if Ascii.eqb c "%"%char then
        match t with
        | String h1 (String h2 t') =>
            match hex_of h1, hex_of h2 with
            | Some a, Some b => String (ascii_of_N (16 * a + b)) (unquote_plus t')
            | _, _ => String c (unquote_plus t)
            end
        | _ => String c (unquote_plus t)
        end
      else String c (unquote_plus t)
  end.

(** [s.replace(old, new)] for a non-empty [old]: the occurrences of [old]
    are found from left to right and do not overlap. [skip] counts the
    characters of the occurrence being replaced that are still to drop. *)
Fixpoint replace_from (old new : string) (skip : nat) (s : string) : string :=
  match s with
  | EmptyString => EmptyString
  | String c t =>
      match skip with
      | S k => replace_from old new k t
      | O =>
          if String.prefix old s
          then new ++ replace_from old new (Nat.pred (String.length old)) t
          else String c (replace_from old new O t)
      end
  end.

Definition replace (s old new : string) : string := replace_from old new O s.

(** The [TableInput] that [create_glue_table_if_not_exists] sends. *)
Definition table_input (table_name s3_location : string)
  (glue_schema : list (string * string)) : Table :=
  {| Name := table_name;
     Columns := glue_schema;
     Location := s3_location;
     InputFormat := "org.apache.hadoop.hive.ql.io.parquet.MapredParquetInputFormat";
     OutputFormat := "org.apache.hadoop.hive.ql.io.parquet.MapredParquetOutputFormat";
     Compressed := false;
     SerializationLibrary := "org.apache.hadoop.hive.ql.io.parquet.serde.ParquetHiveSerDe";
     TableType := "EXTERNAL_TABLE" |}.

(** ** Example data

    A reference-data document whose second item has an explicit null
    title, a statistics document whose second item has a view count with a
    fraction, one whose second item has a view count that is no number,
    and worlds that hold them: one whose catalog lacks the table, one whose
    catalog has it. *)

Definition categories : DataFrame value :=
  [("id", [VStr "1"; VStr "2"]);
   ("snippet.title", [VStr "Film"; VNone])].

Definition statistics : DataFrame value :=
  [("id", [VInt 1; VInt 2]);
   ("views", [VStr "1000"; VStr "12.5"])].

Definition clean_statistics : DataFrame value :=
  [("id", [VInt 1; VInt 2]);
   ("views", [VStr "1000"; VStr "bad"])].

Definition statistics_table : Table :=
  table_input "raw_statistics" "s3://clean/" [("id", "bigint"); ("views", "bigint")].

Definition flags : DataFrame value :=
  [("assignable", [VInt 0; VInt 1; VStr ""; VStr "x"]);
   ("kind", [VStr "a"; VNaN; VNone; VInt 7]);
   ("etag", [VStr "e1"; VStr "e2"; VNone; VStr "e4"])].

Definition flags_schema : list (string * string) :=
  [("assignable", "boolean"); ("kind", "string"); ("publishedAt", "timestamp")].

Definition flags_cast : DataFrame cell :=
  [("assignable", [Raw (VBool false); Raw (VBool true); Raw (VBool false); Raw (VBool true)]);
   ("kind", [Raw (VStr "a"); Raw (VStr "nan"); Raw (VStr "None"); Raw (VStr "7")]);
   ("etag", [Raw (VStr "e1"); Raw (VStr "e2"); Raw VNone; Raw (VStr "e4")])].

Definition nullable_flags : DataFrame value :=
  [("assignable", [VBool true; VNaN; VNone])].

Definition world_without_table : world :=
  {| s3 := {[ "raw" := {[ "ref/US.json" := JsonDocument (Ok categories);
                          "v1.json/US.json" := JsonDocument (Ok categories) ]};
              "clean" := ∅ ]};
     glue := {[ "db_youtube_cleaned" := ∅ ]};
     stdout := [] |}.

Definition world_with_table : world :=
  {| s3 := {[ "raw" := {[ "stats/US.json" := JsonDocument (Ok statistics);
                          "stats/GB.json" := JsonDocument (Ok clean_statistics) ]};
              "clean" := ∅ ]};
     glue := {[ "db_youtube_cleaned" := {[ "raw_statistics" := statistics_table ]} ]};
     stdout := [] |}.

(** A world without the destination bucket, and one whose source
    document lies in the destination bucket under a key without ".json". *)
Definition world_without_destination : world :=
  {| s3 := {[ "raw" := {[ "ref/US.json" := JsonDocument (Ok categories) ]} ]};
     glue := {[ "db_youtube_cleaned" := ∅ ]};
     stdout := [] |}.

Definition world_in_place : world :=
  {| s3 := {[ "clean" := {[ "ref/US" := JsonDocument (Ok categories) ]} ]};
     glue := {[ "db_youtube_cleaned" := ∅ ]};
     stdout := [] |}.

Definition in_place_record : s3_record :=
  {| bucket_name := "clean"; object_key := "ref/US" |}.

Definition source_record (key : string) : s3_record :=
  {| bucket_name := "raw"; object_key := key |}.


Definition notification (key : string) : event :=
  {| Records := [ {| bucket_name := "raw"; object_key := key |} ] |}.

(** ** The ingest code

    Some library behaviour stays abstract: Python's [str] of a float;
    [pd.to_datetime(..., errors='coerce')] on a column, whose date parser
    the source does not fix (it answers [None] where pandas raises, a
    [TypeError], as on a column of bools); what the numeric casts make of
    cells that are not tame; and which columns pyarrow refuses to encode. *)

(** What pandas raises from inside a cast. *)
Inductive pandas_error : Type :=
| CastTypeError
| CastValueError
| CastOverflowError.

Definition raised (e : pandas_error) : exn :=
  match e with
  | CastTypeError => TypeError
  | CastValueError => ValueError
  | CastOverflowError => OverflowError
  end.

Definition is_text (c : cell) : bool :=
  match c with Raw (VStr _) => true | _ => false end.

Fixpoint has_duplicates (l : list string) : bool :=
  match l with
  | [] => false
  | x :: l' => existsb (String.eqb x) l' || has_duplicates l'
  end.

(** The examples print no float, cast no timestamp column and hold tame
    cells only; where a statement has to fix the library behaviour that
    the model leaves open, it fixes these. For pyarrow they take the rule
    that a column converts when its cells, nulls apart, are of one kind. *)
Definition unused_str_of_float (q : Q) : string := "".
Definition unused_to_datetime (col : list value) : option (list cell) := None.
Definition unused_Int64_error (col : list value) : option pandas_error := None.
Definition unused_Int64_cell (col : list value) (v : value) : cell := NA.
Definition unused_float_cell (v : value) : cell := Raw VNaN.

Inductive kind : Type := KInt | KFloat | KBool | KStr | KTime.

Definition kind_of (c : cell) : option kind :=
  match c with
  | Raw (VInt _) => Some KInt
  | Raw (VFloat _) | Inf _ => Some KFloat
  | Raw (VBool _) => Some KBool
  | Raw (VStr _) => Some KStr
  | Timestamp _ => Some KTime
  | Raw VNone | Raw VNaN | NA | NaT => None
  end.

Definition same_kind (a b : kind) : bool :=
  match a, b with
  | KInt, KInt | KFloat, KFloat | KBool, KBool | KStr, KStr | KTime, KTime => true
  | _, _ => false
  end.

Fixpoint kinds (col : list cell) : list kind :=
  match col with
  | [] => []
  | c :: col' => match kind_of c with
                 | Some k => k :: kinds col'
                 | None => kinds col'
                 end
  end.

Definition example_arrow_error (col : list cell) : option exn :=
  match kinds col with
  | [] => None
  | k :: ks => if forallb (same_kind k) ks then None else Some ArrowInvalid
  end.

Section Lambda.

Variable str_of_float : Q -> string.
Variable to_datetime : list value -> option (list cell).

(** [pd.to_numeric(col, errors='coerce').astype('Int64')] on a column
    with a cell that is not tame: the exception, if pandas raises one, and
    otherwise the cell that each cell becomes (which can depend on the
    other cells: one float in the column sends every int through float64). *)
Variable wild_Int64_error : list value -> option pandas_error.
Variable wild_Int64_cell : list value -> value -> cell.

(** [pd.to_numeric(..., errors='coerce').astype(float)] on one cell that
    is not tame. *)
Variable wild_float_cell : value -> cell.

(** The exception, if any, that pyarrow raises on a column that is not
    all text (for one, on an object column that mixes ints and texts). *)
Variable arrow_error : list cell -> option exn.

(** [pd.to_numeric(col, errors='coerce').astype('Int64')] *)
Definition to_Int64 (col : list value) : result (list cell) :=
  if forallb tame col then astype_Int64 (to_numeric col)
  else match wild_Int64_error col with
       | Some e => Err (raised e)
       | None => Ok (map (wild_Int64_cell col) col)
       end.

(** One cell under [pd.to_numeric(..., errors='coerce').astype(float)];
    a float stays the float it is. *)
Definition to_float_value (v : value) : cell :=
  match v with
  | VFloat q => Raw (VFloat q)
  | _ => if tame v then astype_float_value (to_numeric_value v) else wild_float_cell v
  end.

Definition to_float (col : list value) : list cell := map to_float_value col.

(** [df.to_parquet(parquet_buffer, index=False)]: pyarrow refuses a frame
    with a repeated column name ([ValueError]) and converts the columns one
    by one; a column of texts always converts. *)
Definition column_error (col : list cell) : option exn :=
  if forallb is_text col then None else arrow_error col.

Fixpoint first_error (cols : list (list cell)) : option exn :=
  match cols with
  | [] => None
  | col :: cols' =>
      match column_error col with
      | Some e => Some e
      | None => first_error cols'
      end
  end.

Definition to_parquet (df : DataFrame cell) : result s3_body :=
  if has_duplicates (columns df) then Err ValueError
  else match first_error (map snd df) with
       | Some e => Err e
       | None => Ok (ParquetFile df)
       end.

(** [str] of one cell, as [.astype(str)] applies it: the null sentinels
    become the texts ["None"] and ["nan"]. *)
Definition str_of_value (v : value) : string :=
  match v with
  | VNone => "None"
  | VNaN => "nan"
  | VInt z => pretty z
  | VFloat q => str_of_float q
  | VBool b => if b then "True" else "False"
  | VStr s => s
  end.

Definition astype_str (col : list value) : list cell :=
  map (fun v => Raw (VStr (str_of_value v))) col.

(** A Python [dict] of column name to Glue type, in insertion order. *)
Definition dict : Type := list (string * string).

Fixpoint dict_set (d : dict) (k v : string) : dict :=
  match d with
  | [] => [(k, v)]
  | (k', v') :: d' =>
      if String.eqb k' k then (k', v) :: d' else (k', v') :: dict_set d' k v
  end.

(** The body of the loop of [cast_dataframe_to_glue_schema] for one column:
    the [if]/[elif] chain on [dtype]. A type that no branch names leaves
    the column as it is. *)
Definition cast_column (dtype : string) (col : list value) : result (list cell) :=
  if String.eqb dtype "bigint" then to_Int64 col
  else if String.eqb dtype "double" then Ok (to_float col)
  else if String.eqb dtype "boolean" then Ok (astype_bool col)
  else if String.eqb dtype "string" then Ok (astype_str col)
  else if String.eqb dtype "timestamp" then
    match to_datetime col with
    | Some new => Ok new
    | None => Err TypeError
    end
  else Ok (map Raw col).

(** [for column, dtype in glue_schema.items(): if column in df.columns: ...].
    A dict has one entry per key, so the loop reads every column before it
    assigns it: [src] is the frame as it was passed in, [df] the frame
    being rewritten in place. An exception leaves the loop at once. *)
Fixpoint cast_loop (items : dict) (src : DataFrame value) (df : DataFrame cell)
  : result (DataFrame cell) :=
  match items with
  | [] => Ok df
  | (column, dtype) :: rest =>
      match get_column src column with
      | Some col =>
          rbind (cast_column dtype col)
                (fun new => cast_loop rest src (set_column df column new))
      | None => cast_loop rest src df
      end
  end.

Definition untouched (df : DataFrame value) : DataFrame cell :=
  map (fun '(name, col) => (name, map Raw col)) df.

Definition cast_dataframe_to_glue_schema (df : DataFrame value) (glue_schema : dict)
  : result (DataFrame cell) :=
  cast_loop glue_schema df (untouched df).

(** *** Schema inference *)

Inductive dtype : Type :=
| int64
| float64
| bool_
| datetime64
| object_.

Definition is_VInt (v : value) : bool :=
  match v with VInt _ => true | _ => false end.
Definition is_VFloat (v : value) : bool :=
  match v with VFloat _ | VNaN => true | _ => false end.
Definition is_VBool (v : value) : bool :=
  match v with VBool _ => true | _ => false end.

(** The dtype pandas gives a column of a frame built from JSON rows: a
    NumPy dtype when the cells are homogeneous, [object] otherwise (and
    for a column without rows). *)
Definition dtype_of (col : list value) : dtype :=
  match col with
  | [] => object_
  | _ =>
      if forallb is_VInt col then int64
      else if forallb is_VFloat col then float64
      else if forallb is_VBool col then bool_
      else object_
  end.

Definition is_integer_dtype (d : dtype) : bool :=
  match d with int64 => true | _ => false end.
Definition is_float_dtype (d : dtype) : bool :=
  match d with float64 => true | _ => false end.
Definition is_bool_dtype (d : dtype) : bool :=
  match d with bool_ => true | _ => false end.
Definition is_datetime64_any_dtype (d : dtype) : bool :=
  match d with datetime64 => true | _ => false end.

(** The list of [{'Name': column, 'Type': glue_type}] entries, as pairs. *)
Definition infer_glue_schema_from_dataframe (df : DataFrame value)
  : list (string * string) :=
  map (fun '(column, col) =>
         let d := dtype_of col in
         let glue_type :=
           if is_integer_dtype d then "int"
           else if is_float_dtype d then "double"
           else if is_bool_dtype d then "boolean"
           else if is_datetime64_any_dtype d then "timestamp"
           else "string" in
         (column, glue_type)) df.


(** *** The lambda *)

Variable os_input_s3_cleansed_layer : string.
Variable os_input_glue_catalog_db_name : string.
Variable os_input_glue_catalog_table_name : string.

(** [{col['Name']: col['Type'] for col in columns}] *)
Definition dict_of_columns (columns : list (string * string)) : dict :=
  fold_left (fun d col => dict_set d (fst col) (snd col)) columns [].

Definition get_glue_table_schema (database_name table_name : string) : M dict :=
  try_except_not_found
    (let* response := get_table database_name table_name in
     let columns := Columns response in
     ret (dict_of_columns columns))
    (print (Line ("Table " ++ table_name ++ " not found in database "
                  ++ database_name ++ "."));;
     raise EntityNotFoundException).

(** [create_glue_table_if_not_exists], with what other invocations do to
    the world between its two catalog requests made explicit: [between]
    runs after [get_table] has answered and before [create_table] is sent. *)
Definition create_glue_table_if_not_exists_interleaved (between : world -> world)
  (database_name table_name s3_location : string)
  (glue_schema : list (string * string)) : M unit :=
  try_except_not_found
    (get_table database_name table_name;;
     print (Line ("Table " ++ table_name ++ " already exists in database "
                  ++ database_name ++ ".")))
    (print (Line ("Table " ++ table_name
                  ++ " does not exist. Creating with inferred schema..."));;
     (fun w => (Ok tt, between w));;
     create_table database_name (table_input table_name s3_location glue_schema);;
     print (LineSchema ("Table " ++ table_name ++ " created successfully with schema: ")
                       glue_schema)).

(** The function as one invocation runs it on its own. *)
Definition create_glue_table_if_not_exists :=
  create_glue_table_if_not_exists_interleaved (fun w => w).

(** [pd.json_normalize(pd.read_json(io.BytesIO(content))['items'])] *)
Definition read_items (content : s3_body) : result (DataFrame value) :=
  match content with
  | JsonDocument items => items
  | ParquetFile _ => Err ValueError
  end.

(** The inner [try]/[except] of [lambda_handler]: it leaves in
    [df_step_1] the frame that is handed to [to_parquet]. *)
Definition resolve_and_cast (df_step_1 : DataFrame value) : M (DataFrame cell) :=
  try_except_not_found
    (let* glue_schema :=
       get_glue_table_schema os_input_glue_catalog_db_name
                             os_input_glue_catalog_table_name in
     lift (cast_dataframe_to_glue_schema df_step_1 glue_schema))
    (let glue_schema := infer_glue_schema_from_dataframe df_step_1 in
     create_glue_table_if_not_exists
       os_input_glue_catalog_db_name
       os_input_glue_catalog_table_name
       ("s3://" ++ os_input_s3_cleansed_layer ++ "/")
       glue_schema;;
     ret (untouched df_step_1)).

(** The body of the outer [try] of [lambda_handler]. *)
Definition handler_body (bucket key : string) : M response :=
  let* content := get_object bucket key in
  let* df_step_1 := lift (read_items content) in
  let* df_step_1 := resolve_and_cast df_step_1 in
  let* parquet_buffer := lift (to_parquet df_step_1) in
  let s3_key := replace key ".json" ".parquet" in
  put_object os_input_s3_cleansed_layer s3_key parquet_buffer;;
  ret {| statusCode := 200;
         body := "File " ++ key ++ " processed and saved as Parquet." |}.

Definition lambda_handler (ev : event) : M response :=
  match Records ev with
  | [] => raise IndexError
  | record :: _ =>
      let bucket := bucket_name record in
      let key := unquote_plus (object_key record) in
      try_except
        (handler_body bucket key)
        (fun e =>
           print (LineExn e);;
           print (Line ("Error processing object " ++ key ++ " from bucket "
                        ++ bucket ++ "."));;
           raise e)
  end.

(** *** Vocabulary of the statements *)

(** The table the catalog holds under a name, if any. *)
Definition find_table (w : world) (database_name table_name : string) : option Table :=
  match glue w !! database_name with
  | Some tables => tables !! table_name
  | None => None
  end.

(** [old in s] *)
Fixpoint occurs (old s : string) : bool :=
  String.prefix old s ||
  match s with
  | EmptyString => false
  | String _ t => occurs old t
  end.

(** [d.get(k)] *)
Fixpoint dict_get (d : dict) (k : string) : option string :=
  match d with
  | [] => None
  | (k', v) :: d' => if String.eqb k' k then Some v else dict_get d' k
  end.

(** The type of the last entry of a column list that has the given name. *)
Definition last_type (columns0 : list (string * string)) (name : string) : option string :=
  fold_left (fun acc col => if String.eqb (fst col) name then Some (snd col) else acc)
            columns0 None.



(** The Glue type that [infer_glue_schema_from_dataframe] gives a column. *)
Definition glue_type_of (col : list value) : string :=
  match dtype_of col with
  | int64 => "int"
  | float64 => "double"
  | bool_ => "boolean"
  | datetime64 => "timestamp"
  | object_ => "string"
  end.

(** What a cast against its own inferred type makes of a column: text
    for an [object] column, the column itself for the other dtypes. *)
Definition recast (col : list value) : list cell :=
  match dtype_of col with
  | object_ => astype_str col
  | _ => map Raw col
  end.

(** The Glue types that [infer_glue_schema_from_dataframe] gives a frame
    made from JSON, whose columns are never [datetime64]. *)
Definition inferred_types : list string := ["int"; "double"; "boolean"; "string"].

(** The Glue types that have a branch in [cast_dataframe_to_glue_schema]. *)
Definition cast_types : list string :=
  ["bigint"; "double"; "boolean"; "string"; "timestamp"].

(** A key without ['+'] and ['%'], which URL decoding has nothing to do on. *)
Fixpoint unescaped (s : string) : bool :=
  match s with
  | EmptyString => true
  | String c t => negb (Ascii.eqb c "+"%char) && negb (Ascii.eqb c "%"%char) && unescaped t
  end.

(** A text without ['.']. *)
Fixpoint dotless (s : string) : bool :=
  match s with
  | EmptyString => true
  | String c t => negb (Ascii.eqb c "."%char) && dotless t
  end.

(** The line [lambda_handler] prints after the exception it re-raises. *)
Definition error_line (key bucket : string) : printed :=
  Line ("Error processing object " ++ key ++ " from bucket " ++ bucket ++ ".").

(** The location the lambda registers a new table at. *)
Definition s3_location : string := "s3://" ++ os_input_s3_cleansed_layer ++ "/".

(** How an invocation for [key] in [bucket] ends when the body of its
    [try] has raised [e] in world [w1]: the exception and the error line
    are printed and [e] is raised again. *)
Definition reraised (key bucket : string) (e : exn) (w1 : world)
  : result response * world :=
  (Err e, with_stdout w1 (stdout w1 ++ [LineExn e; error_line key bucket])).

(** How an invocation ends once it holds the frame [out] to serialize in
    world [w1] (steps 5 and 6): what [to_parquet] or [put_object] raises
    is re-raised, and otherwise the artifact is stored and the success
    value returned. *)
Definition serialized_and_written (key bucket : string) (out : DataFrame cell) (w1 : world)
  : result response * world :=
  match to_parquet out with
  | Err e => reraised key bucket e w1
  | Ok artifact =>
      match s3 w1 !! os_input_s3_cleansed_layer with
      | None => reraised key bucket NoSuchBucket w1
      | Some dest =>
          (Ok {| statusCode := 200;
                 body := "File " ++ key ++ " processed and saved as Parquet." |},
           with_s3 w1 (<[os_input_s3_cleansed_layer :=
                         <[replace key ".json" ".parquet" := artifact]> dest]> (s3 w1)))
      end
  end.

(** The two lines printed when the table is not found, before it is created. *)
Definition not_found_lines : list printed :=
  [Line ("Table " ++ os_input_glue_catalog_table_name ++ " not found in database "
         ++ os_input_glue_catalog_db_name ++ ".");
   Line ("Table " ++ os_input_glue_catalog_table_name
         ++ " does not exist. Creating with inferred schema...")].

(** The world after the schema inferred from [df] has been registered in
    a database that holds [tables]. *)
Definition registered (df : DataFrame value) (tables : gmap string Table) (w : world)
  : world :=
  let glue_schema := infer_glue_schema_from_dataframe df in
  {| s3 := s3 w;
     glue := <[os_input_glue_catalog_db_name :=
               <[os_input_glue_catalog_table_name :=
                 table_input os_input_glue_catalog_table_name s3_location glue_schema]>
                 tables]> (glue w);
     stdout := stdout w ++ not_found_lines
               ++ [LineSchema ("Table " ++ os_input_glue_catalog_table_name
                               ++ " created successfully with schema: ") glue_schema] |}.

(** The value [lambda_handler] returns for a processed key. *)
Definition success (key : string) : response :=
  {| statusCode := 200;
     body := "File " ++ key ++ " processed and saved as Parquet." |}.

(** ** Properties of the cast *)

Lemma get_set_column_eq {A} (df : DataFrame A) column new col :
  get_column df column = Some col ->
  get_column (set_column df column new) column = Some new.
Proof.
  induction df as [|[name c] df IH]; simpl; [discriminate|].
  destruct (String.eqb name column) eqn:E; simpl; rewrite E; auto.
Qed.

Lemma get_set_column_ne {A} (df : DataFrame A) column new name :
  column <> name ->
  get_column (set_column df column new) name = get_column df name.
Proof.
  intros Hne. induction df as [|[n c] df IH]; simpl; [reflexivity|].
  destruct (String.eqb n column) eqn:E; simpl.
  - apply String.eqb_eq in E. subst n.
    destruct (String.eqb column name) eqn:E'; [|reflexivity].
    apply String.eqb_eq in E'. contradiction.
  - destruct (String.eqb n name); auto.
Qed.

Lemma columns_set_column {A} (df : DataFrame A) column new :
  columns (set_column df column new) = columns df.
Proof.
  unfold columns. induction df as [|[n c] df IH]; simpl; [reflexivity|].
  destruct (String.eqb n column); simpl; [reflexivity|]. now rewrite IH.
Qed.

Lemma get_column_untouched (df : DataFrame value) name :
  get_column (untouched df) name = option_map (map Raw) (get_column df name).
Proof.
  induction df as [|[n c] df IH]; simpl; [reflexivity|].
  destruct (String.eqb n name); auto.
Qed.

Lemma columns_untouched (df : DataFrame value) :
  columns (untouched df) = columns df.
Proof.
  unfold columns, untouched. rewrite map_map. apply map_ext. now intros [n c].
Qed.

(** The loop never changes the column names of the frame it rewrites. *)
Lemma cast_loop_columns items src : forall df df',
  cast_loop items src df = Ok df' -> columns df' = columns df.
Proof.
  induction items as [|[column dt] items IH]; simpl; intros df df' H.
  - now inversion H.
  - destruct (get_column src column) as [col|]; [|now apply IH].
    destruct (cast_column dt col) as [new|e]; simpl in H; [|discriminate].
    apply IH in H. now rewrite H, columns_set_column.
Qed.

(** The loop leaves alone every column that no item names. *)
Lemma cast_loop_frame items src name : forall df df',
  ~ In name (map fst items) ->
  cast_loop items src df = Ok df' ->
  get_column df' name = get_column df name.
Proof.
  induction items as [|[column dt] items IH]; simpl; intros df df' Hn H.
  - now inversion H.
  - assert (column <> name /\ ~ In name (map fst items)) as [Hne Hn'] by tauto.
    destruct (get_column src column) as [col|]; [|now apply IH].
    destruct (cast_column dt col) as [new|e]; simpl in H; [|discriminate].
    apply IH in H; [|assumption]. now rewrite H, get_set_column_ne.
Qed.

(** A column that the schema names once holds, after the loop, what its
    branch of the [if]/[elif] chain made of the flattened column. *)
Lemma cast_loop_column items src name dt col : forall df df' old,
  List.NoDup (map fst items) ->
  In (name, dt) items ->
  get_column src name = Some col ->
  get_column df name = Some old ->
  cast_loop items src df = Ok df' ->
  exists new, cast_column dt col = Ok new /\ get_column df' name = Some new.
Proof.
  induction items as [|[column dt'] items IH]; simpl; intros df df' old Hnd Hin Hsrc Hdf H.
  - contradiction.
  - inversion Hnd as [|? ? Hnotin Hnd']; subst.
    destruct Hin as [Heq|Hin].
    + inversion Heq; subst column dt'. rewrite Hsrc in H.
      destruct (cast_column dt col) as [new|e]; simpl in H; [|discriminate].
      exists new. split; [reflexivity|].
      rewrite (cast_loop_frame _ _ _ _ _ Hnotin H).
      eapply get_set_column_eq; eauto.
    + assert (column <> name) as Hne.
      { intros ->. apply Hnotin. change name with (fst (name, dt)). now apply in_map. }
      destruct (get_column src column) as [col'|]; [|eapply IH; eauto].
      destruct (cast_column dt' col') as [new'|e]; simpl in H; [|discriminate].
      apply (IH (set_column df column new') df' old); auto.
      rewrite get_set_column_ne; auto.
Qed.

Lemma cast_column_of df glue_schema df' name dt col :
  List.NoDup (map fst glue_schema) ->
  In (name, dt) glue_schema ->
  get_column df name = Some col ->
  cast_dataframe_to_glue_schema df glue_schema = Ok df' ->
  exists new, cast_column dt col = Ok new /\ get_column df' name = Some new.
Proof.
  intros Hnd Hin Hcol H. unfold cast_dataframe_to_glue_schema in H.
  eapply cast_loop_column; eauto.
  rewrite get_column_untouched, Hcol. reflexivity.
Qed.

(** C6: the cast leaves every column that the schema does not name as it
    was, and the cast frame has exactly the columns of the batch, in the
    same order: no column of the schema is added. *)
Theorem cast_frame_unnamed_columns (df : DataFrame value) (glue_schema : dict)
  (df' : DataFrame cell) :
  cast_dataframe_to_glue_schema df glue_schema = Ok df' ->
  columns df' = columns df /\
  forall name, ~ In name (map fst glue_schema) ->
    get_column df' name = option_map (map Raw) (get_column df name).
Proof.
  unfold cast_dataframe_to_glue_schema. intros H. split.
  - rewrite (cast_loop_columns _ _ _ _ H). apply columns_untouched.
  - intros name Hn. rewrite (cast_loop_frame _ _ _ _ _ Hn H).
    apply get_column_untouched.
Qed.

Lemma cast_column_boolean col : cast_column "boolean" col = Ok (astype_bool col).
Proof. reflexivity. Qed.

Lemma cast_column_string col : cast_column "string" col = Ok (astype_str col).
Proof. reflexivity. Qed.

(** C4: a column cast against [boolean] holds a bool in every row, so no
    null, whatever the input was; on the input [0, 1, "", "x"] the bools
    are [False, True, False, True]. *)
Theorem boolean_cast_is_truthiness (df : DataFrame value) (glue_schema : dict)
  (df' : DataFrame cell) (name : string) (col : list value) :
  List.NoDup (map fst glue_schema) ->
  In (name, "boolean") glue_schema ->
  get_column df name = Some col ->
  cast_dataframe_to_glue_schema df glue_schema = Ok df' ->
  exists out,
    get_column df' name = Some out /\
    Forall2 (fun v c => exists b, c = Raw (VBool b) /\ isna c = false) col out /\
    (col = [VInt 0; VInt 1; VStr ""; VStr "x"] ->
     out = [Raw (VBool false); Raw (VBool true); Raw (VBool false); Raw (VBool true)]).
Proof.
  intros Hnd Hin Hcol H.
  destruct (cast_column_of _ _ _ _ _ _ Hnd Hin Hcol H) as (out & Hc & Hout).
  rewrite cast_column_boolean in Hc. inversion Hc; subst out; clear Hc.
  exists (astype_bool col). split; [assumption|]. split.
  - clear. induction col as [|v col IH]; simpl; constructor; eauto.
  - intros ->. reflexivity.
Qed.

(** C8, as the code has it: in a column cast against [boolean] a NaN (a
    field missing from the row) becomes [True] and a [None] (an explicit
    null) becomes [False]; either way the cast column holds no null. *)
Theorem boolean_cast_of_nulls (df : DataFrame value) (glue_schema : dict)
  (df' : DataFrame cell) (name : string) (col : list value) :
  List.NoDup (map fst glue_schema) ->
  In (name, "boolean") glue_schema ->
  get_column df name = Some col ->
  cast_dataframe_to_glue_schema df glue_schema = Ok df' ->
  exists out,
    get_column df' name = Some out /\
    Forall2 (fun v c =>
               isna c = false /\
               (v = VNaN -> c = Raw (VBool true)) /\
               (v = VNone -> c = Raw (VBool false))) col out.
Proof.
  intros Hnd Hin Hcol H.
  destruct (cast_column_of _ _ _ _ _ _ Hnd Hin Hcol H) as (out & Hc & Hout).
  rewrite cast_column_boolean in Hc. inversion Hc; subst out; clear Hc.
  exists (astype_bool col). split; [assumption|].
  clear. induction col as [|v col IH]; simpl; constructor; auto.
  repeat split; intros ->; reflexivity.
Qed.

(** C9: a column cast against [string] holds a str in every row: a [None]
    becomes the text "None" and a NaN the text "nan", so no null is left. *)
Theorem string_cast_drops_nullness (df : DataFrame value) (glue_schema : dict)
  (df' : DataFrame cell) (name : string) (col : list value) :
  List.NoDup (map fst glue_schema) ->
  In (name, "string") glue_schema ->
  get_column df name = Some col ->
  cast_dataframe_to_glue_schema df glue_schema = Ok df' ->
  exists out,
    get_column df' name = Some out /\
    Forall2 (fun v c =>
               (exists s, c = Raw (VStr s)) /\
               isna c = false /\
               (v = VNone -> c = Raw (VStr "None")) /\
               (v = VNaN -> c = Raw (VStr "nan"))) col out.
Proof.
  intros Hnd Hin Hcol H.
  destruct (cast_column_of _ _ _ _ _ _ Hnd Hin Hcol H) as (out & Hc & Hout).
  rewrite cast_column_string in Hc. inversion Hc; subst out; clear Hc.
  exists (astype_str col). split; [assumption|].
  clear. induction col as [|v col IH]; simpl; constructor; auto.
  repeat split; eauto; intros ->; reflexivity.
Qed.

(** ** Properties of the catalog code *)

Ltac run :=
  unfold get_glue_table_schema, create_glue_table_if_not_exists,
    create_glue_table_if_not_exists_interleaved, try_except_not_found,
    try_except, bind, ret, raise, lift, print, get_table, create_table,
    get_object, put_object, find_table in *;
  simpl in *.

Lemma get_table_find database_name table_name w :
  get_table database_name table_name w =
  (match find_table w database_name table_name with
   | Some t => Ok t
   | None => Err EntityNotFoundException
   end, w).
Proof. run. repeat case_match; congruence. Qed.

Lemma get_glue_table_schema_found database_name table_name w t :
  find_table w database_name table_name = Some t ->
  get_glue_table_schema database_name table_name w = (Ok (dict_of_columns (Columns t)), w).
Proof.
  intros H. unfold get_glue_table_schema, try_except_not_found, try_except, bind.
  rewrite get_table_find, H. reflexivity.
Qed.

Lemma get_glue_table_schema_missing database_name table_name w :
  find_table w database_name table_name = None ->
  get_glue_table_schema database_name table_name w =
  (Err EntityNotFoundException,
   with_stdout w (stdout w ++ [Line ("Table " ++ table_name ++ " not found in database "
                                     ++ database_name ++ ".")])).
Proof.
  intros H. unfold get_glue_table_schema, try_except_not_found, try_except, bind.
  rewrite get_table_find, H. reflexivity.
Qed.

(** A registration, run on its own, either finds the table and leaves the
    catalog alone, or creates it as [table_input] describes, or fails
    because the database is missing. *)
Lemma create_glue_table_if_not_exists_spec database_name table_name s3_location glue_schema w :
  exists out,
    create_glue_table_if_not_exists database_name table_name s3_location glue_schema w =
    match glue w !! database_name with
    | None => (Err EntityNotFoundException, with_stdout w (stdout w ++ out))
    | Some tables =>
        match tables !! table_name with
        | Some _ => (Ok tt, with_stdout w (stdout w ++ out))
        | None =>
            (Ok tt,
             {| s3 := s3 w;
                glue := <[database_name :=
                          <[table_name := table_input table_name s3_location glue_schema]>
                            tables]> (glue w);
                stdout := stdout w ++ out |})
        end
    end.
Proof.
  run. destruct (glue w !! database_name) as [tables|] eqn:Hdb; simpl.
  - destruct (tables !! table_name) as [t|] eqn:Ht; simpl.
    + eexists. reflexivity.
    + rewrite Hdb, Ht. simpl. eexists. unfold with_glue, with_stdout. simpl.
      rewrite <- app_assoc. reflexivity.
  - rewrite Hdb. simpl. eexists. reflexivity.
Qed.

Lemma dict_set_keys d k v :
  map fst (dict_set d k v) = if existsb (String.eqb k) (map fst d)
                             then map fst d else map fst d ++ [k].
Proof.
  induction d as [|[k' v'] d IH]; simpl; [reflexivity|].
  rewrite (String.eqb_sym k k').
  destruct (String.eqb k' k); simpl; [reflexivity|]. rewrite IH.
  now destruct (existsb (String.eqb k) (map fst d)).
Qed.

Lemma NoDup_snoc (l : list string) k :
  List.NoDup l -> ~ In k l -> List.NoDup (l ++ [k]).
Proof.
  induction 1 as [|x l Hx Hl IH]; simpl; intros Hk.
  - constructor; [tauto|constructor].
  - constructor.
    + rewrite in_app_iff. simpl. intros [?|[?|[]]]; [tauto|]. subst. tauto.
    + apply IH. tauto.
Qed.

(** The schema that [get_glue_table_schema] builds has one entry per name. *)
Lemma dict_of_columns_NoDup columns0 : List.NoDup (map fst (dict_of_columns columns0)).
Proof.
  unfold dict_of_columns.
  assert (forall d : dict, List.NoDup (map fst d) ->
            List.NoDup (map fst (fold_left (fun d col => dict_set d (fst col) (snd col))
                                           columns0 d))) as G.
  { induction columns0 as [|[k v] cs IH]; simpl; intros d Hd; [assumption|].
    apply IH. rewrite dict_set_keys.
    destruct (existsb (String.eqb k) (map fst d)) eqn:E; [assumption|].
    apply NoDup_snoc; [assumption|]. intros Hin.
    assert (existsb (String.eqb k) (map fst d) = true) as Ht; [|congruence].
    apply existsb_exists. exists k. split; [assumption|apply String.eqb_refl]. }
  apply G. constructor.
Qed.

(** ** Properties of the orchestration *)

Lemma rmapM_astype_Int64_err col e :
  astype_Int64 col = Err e -> e = TypeError.
Proof.
  unfold astype_Int64. induction col as [|n col IH]; simpl; [discriminate|].
  destruct n as [[z|q]|]; simpl.
  - destruct (rmapM astype_Int64_value col); simpl; [discriminate|].
    intros H; inversion H; subst. now apply IH.
  - destruct (is_integral q); simpl.
    + destruct (rmapM astype_Int64_value col); simpl; [discriminate|].
      intros H; inversion H; subst. now apply IH.
    + congruence.
  - destruct (rmapM astype_Int64_value col); simpl; [discriminate|].
    intros H; inversion H; subst. now apply IH.
Qed.


Lemma cast_column_err dt col e :
  cast_column dt col = Err e -> exists p, e = raised p.
Proof.
  unfold cast_column.
  destruct (String.eqb dt "bigint").
  { unfold to_Int64. destruct (forallb tame col).
    - intros H. apply rmapM_astype_Int64_err in H. now exists CastTypeError.
    - destruct (wild_Int64_error col) as [p|]; [|discriminate].
      intros H; inversion H. now exists p. }
  destruct (String.eqb dt "double"); [discriminate|].
  destruct (String.eqb dt "boolean"); [discriminate|].
  destruct (String.eqb dt "string"); [discriminate|].
  destruct (String.eqb dt "timestamp"); [|discriminate].
  destruct (to_datetime col); [discriminate|].
  intros H; inversion H. now exists CastTypeError.
Qed.

(** The branches for [double], [boolean] and [string] never raise. *)
Lemma cast_column_total dt col :
  dt = "double" \/ dt = "boolean" \/ dt = "string" ->
  exists new, cast_column dt col = Ok new.
Proof.
  intros [-> | [-> | ->]]; eexists; reflexivity.
Qed.

(** Whatever stops a cast is an exception of pandas. *)
Lemma cast_err df glue_schema e :
  cast_dataframe_to_glue_schema df glue_schema = Err e -> exists p, e = raised p.
Proof.
  unfold cast_dataframe_to_glue_schema. generalize (untouched df).
  induction glue_schema as [|[column dt] items IH]; simpl; intros d H; [discriminate|].
  destruct (get_column df column) as [col|]; [|eauto].
  destruct (cast_column dt col) as [new|e'] eqn:E; simpl in H; [eauto|].
  inversion H; subst. eapply cast_column_err; eauto.
Qed.

(** Schema resolution when the catalog has the table: the frame handed on
    is the cast of the flattened frame against the fetched schema. *)
Lemma resolve_and_cast_found df w t :
  find_table w os_input_glue_catalog_db_name os_input_glue_catalog_table_name = Some t ->
  resolve_and_cast df w =
  (cast_dataframe_to_glue_schema df (dict_of_columns (Columns t)), w).
Proof.
  intros H. unfold resolve_and_cast, try_except_not_found, try_except, bind.
  rewrite (get_glue_table_schema_found _ _ _ _ H). unfold lift.
  destruct (cast_dataframe_to_glue_schema df (dict_of_columns (Columns t))) as [out|e] eqn:E;
    [reflexivity|].
  apply cast_err in E as [p ->]. now destruct p.
Qed.

(** Schema resolution when the catalog lacks the table: the inferred
    schema is registered and the flattened frame is handed on as it is. *)
Lemma resolve_and_cast_missing df w :
  find_table w os_input_glue_catalog_db_name os_input_glue_catalog_table_name = None ->
  exists out,
    resolve_and_cast df w =
    match glue w !! os_input_glue_catalog_db_name with
    | None => (Err EntityNotFoundException, with_stdout w (stdout w ++ out))
    | Some tables =>
        (Ok (untouched df),
         {| s3 := s3 w;
            glue := <[os_input_glue_catalog_db_name :=
                      <[os_input_glue_catalog_table_name :=
                        table_input os_input_glue_catalog_table_name s3_location
                                    (infer_glue_schema_from_dataframe df)]> tables]> (glue w);
            stdout := stdout w ++ out |})
    end.
Proof.
  intros H. unfold resolve_and_cast, try_except_not_found, try_except, bind.
  rewrite (get_glue_table_schema_missing _ _ _ H).
  match goal with
  | |- context [create_glue_table_if_not_exists ?d ?n ?l ?g ?w0] =>
      destruct (create_glue_table_if_not_exists_spec d n l g w0) as [out Hc];
      rewrite Hc; clear Hc
  end.
  unfold find_table in H. simpl.
  destruct (glue w !! os_input_glue_catalog_db_name) as [tables|]; simpl.
  - rewrite H. eexists. unfold ret, s3_location. rewrite <- app_assoc. reflexivity.
  - eexists. unfold with_stdout. simpl. rewrite <- app_assoc. reflexivity.
Qed.

Lemma resolve_and_cast_frame df w r w1 :
  resolve_and_cast df w = (r, w1) ->
  s3 w1 = s3 w /\ exists out, stdout w1 = stdout w ++ out.
Proof.
  destruct (find_table w os_input_glue_catalog_db_name os_input_glue_catalog_table_name)
    as [t|] eqn:F.
  - rewrite (resolve_and_cast_found _ _ _ F). intros H; inversion H; subst.
    split; [reflexivity|]. exists []. now rewrite app_nil_r.
  - destruct (resolve_and_cast_missing df _ F) as [out ->].
    destruct (glue w !! os_input_glue_catalog_db_name); intros H; inversion H; subst;
      simpl; eauto.
Qed.

Lemma to_parquet_ok df artifact :
  to_parquet df = Ok artifact -> artifact = ParquetFile df.
Proof.
  unfold to_parquet. destruct (has_duplicates (columns df)); [discriminate|].
  destruct (first_error (map snd df)); [discriminate|]. congruence.
Qed.

(** What the body of the outer [try] does, by outcome. *)
Lemma handler_body_spec bucket key w :
  match handler_body bucket key w with
  | (Ok r, w') =>
      exists objects content df out w1 dest,
        s3 w !! bucket = Some objects /\
        objects !! key = Some content /\
        read_items content = Ok df /\
        resolve_and_cast df w = (Ok out, w1) /\
        s3 w !! os_input_s3_cleansed_layer = Some dest /\
        s3 w' = <[os_input_s3_cleansed_layer :=
                  <[replace key ".json" ".parquet" := ParquetFile out]> dest]> (s3 w) /\
        glue w' = glue w1 /\ stdout w' = stdout w1 /\
        r = success key
  | (Err e, w') => s3 w' = s3 w /\ exists out, stdout w' = stdout w ++ out
  end.
Proof.
  assert (forall w0 : world, exists out, stdout w0 = stdout w0 ++ out) as Hnil.
  { intros w0. exists []. now rewrite app_nil_r. }
  unfold handler_body, bind, get_object.
  destruct (s3 w !! bucket) as [objects|] eqn:Hb; [|auto].
  destruct (objects !! key) as [content|] eqn:Hk; [|auto].
  unfold lift. destruct (read_items content) as [df|e] eqn:Hr; [|auto].
  destruct (resolve_and_cast df w) as [[out|e] w1] eqn:Hres;
    destruct (resolve_and_cast_frame _ _ _ _ Hres) as [Hs3 Hout]; [|auto].
  destruct (to_parquet out) as [artifact|e] eqn:Hp; [|auto].
  apply to_parquet_ok in Hp. subst artifact.
  unfold put_object. rewrite Hs3.
  destruct (s3 w !! os_input_s3_cleansed_layer) as [dest|] eqn:Hd; [|auto].
  unfold ret. exists objects, content, df, out, w1, dest. simpl.
  repeat split; auto.
Qed.

(** *** The destination key *)

Lemma replace_from_cons old new c t :
  replace_from old new O (String c t) =
  if String.prefix old (String c t)
  then (new ++ replace_from old new (Nat.pred (String.length old)) t)%string
  else String c (replace_from old new O t).
Proof. reflexivity. Qed.

Lemma occurs_cons old c t :
  occurs old (String c t) = String.prefix old (String c t) || occurs old t.
Proof. reflexivity. Qed.

(** A key without the text is not changed. *)
Lemma replace_absent old new s :
  occurs old s = false -> replace s old new = s.
Proof.
  unfold replace. induction s as [|c t IH]; [reflexivity|].
  rewrite occurs_cons, replace_from_cons. intros H.
  apply orb_false_elim in H as [Hp Ho]. rewrite Hp, IH; auto.
Qed.

Lemma prefix_cons a p b s :
  String.prefix (String a p) (String b s) =
  if Ascii.ascii_dec a b then String.prefix p s else false.
Proof. reflexivity. Qed.

Lemma append_cons c t u : (String c t ++ u)%string = String c (t ++ u).
Proof. reflexivity. Qed.

Ltac next_char t H :=
  rewrite ?append_cons in H; rewrite prefix_cons in H; rewrite prefix_cons;
  match goal with
  | |- context [Ascii.ascii_dec ?a ?b] =>
      destruct (Ascii.ascii_dec a b); [subst|discriminate H]
  end;
  try (destruct t as [|? t]; [vm_compute in H; discriminate H|]).

(** ".json" cannot start inside a stem and run over into the extension:
    a '.' occurs in it at the front only. *)
Lemma prefix_json_app c t :
  String.prefix ".json" (String c t ++ ".json") = true ->
  String.prefix ".json" (String c t) = true.
Proof.
  intros H. do 5 next_char t H. now destruct t.
Qed.

(** A key that ends in ".json" and has the text nowhere else gets its
    extension replaced, and nothing else. *)
Lemma replace_extension stem :
  occurs ".json" stem = false ->
  replace (stem ++ ".json") ".json" ".parquet" = (stem ++ ".parquet")%string.
Proof.
  unfold replace. induction stem as [|c t IH]; [reflexivity|].
  rewrite occurs_cons. intros H. apply orb_false_elim in H as [Hp Ho].
  rewrite append_cons, replace_from_cons.
  destruct (String.prefix ".json" (String c (t ++ ".json"))) eqn:E.
  - rewrite <- append_cons in E. apply prefix_json_app in E. congruence.
  - rewrite IH; auto.
Qed.

(** C2, as the code has it: the artifact is stored under the decoded
    source key with every ".json" in it replaced by ".parquet". For a key
    that ends in ".json" and holds the text nowhere else this is the key
    with its extension replaced; a key without the text is used as it is. *)
Theorem destination_key_replaces_every_json (ev : event) (w w' : world) (r : response) :
  lambda_handler ev w = (Ok r, w') ->
  exists record rest dest out,
    Records ev = record :: rest /\
    let key := unquote_plus (object_key record) in
    s3 w !! os_input_s3_cleansed_layer = Some dest /\
    s3 w' = <[os_input_s3_cleansed_layer :=
              <[replace key ".json" ".parquet" := ParquetFile out]> dest]> (s3 w) /\
    (forall stem, key = (stem ++ ".json")%string -> occurs ".json" stem = false ->
                  replace key ".json" ".parquet" = (stem ++ ".parquet")%string) /\
    (occurs ".json" key = false -> replace key ".json" ".parquet" = key).
Proof.
  unfold lambda_handler. destruct (Records ev) as [|record rest]; [discriminate|].
  unfold try_except.
  pose proof (handler_body_spec (bucket_name record) (unquote_plus (object_key record)) w) as S.
  destruct (handler_body _ _ w) as [[r0|e] w0].
  - intros H; inversion H; subst.
    destruct S as (objects & content & df & out & w1 & dest & _ & _ & _ & _ & Hd & Hs & _).
    exists record, rest, dest, out. simpl. repeat split; auto.
    + intros stem -> Hn. now apply replace_extension.
    + apply replace_absent.
  - unfold bind, print, raise. simpl. discriminate.
Qed.

(** C1, as the code has it: when the catalog has the table, the frame
    that is serialized is the flattened frame cast against the fetched
    schema; when it has not, the inferred schema is registered and the
    frame that is serialized is the flattened frame as it is, not cast. *)
Theorem cast_only_with_fetched_schema (ev : event) (w w' : world) (r : response) :
  lambda_handler ev w = (Ok r, w') ->
  exists record rest objects content df dest out,
    Records ev = record :: rest /\
    s3 w !! bucket_name record = Some objects /\
    objects !! unquote_plus (object_key record) = Some content /\
    read_items content = Ok df /\
    s3 w !! os_input_s3_cleansed_layer = Some dest /\
    s3 w' = <[os_input_s3_cleansed_layer :=
              <[replace (unquote_plus (object_key record)) ".json" ".parquet"
                := ParquetFile out]> dest]> (s3 w) /\
    match find_table w os_input_glue_catalog_db_name os_input_glue_catalog_table_name with
    | Some t => cast_dataframe_to_glue_schema df (dict_of_columns (Columns t)) = Ok out
    | None =>
        out = untouched df /\
        find_table w' os_input_glue_catalog_db_name os_input_glue_catalog_table_name
        = Some (table_input os_input_glue_catalog_table_name s3_location
                            (infer_glue_schema_from_dataframe df))
    end.
Proof.
  unfold lambda_handler. destruct (Records ev) as [|record rest]; [discriminate|].
  unfold try_except.
  pose proof (handler_body_spec (bucket_name record) (unquote_plus (object_key record)) w) as S.
  destruct (handler_body _ _ w) as [[r0|e] w0];
    [|unfold bind, print, raise; simpl; discriminate].
  intros H; inversion H; subst.
  destruct S as (objects & content & df & out & w1 & dest & Hb & Hk & Hr & Hres & Hd & Hs & Hg & _).
  exists record, rest, objects, content, df, dest, out. repeat split; auto.
  destruct (find_table w os_input_glue_catalog_db_name os_input_glue_catalog_table_name)
    as [t|] eqn:F.
  - rewrite (resolve_and_cast_found _ _ _ F) in Hres. now inversion Hres.
  - destruct (resolve_and_cast_missing df _ F) as [o Hm]. rewrite Hm in Hres.
    destruct (glue w !! os_input_glue_catalog_db_name) as [tables|] eqn:G;
      inversion Hres; subst. split; [reflexivity|].
    unfold find_table. rewrite Hg. simpl.
    rewrite lookup_insert_eq. apply lookup_insert_eq.
Qed.

(** C5, as the code has it: a registration that follows a successful
    registration with the same arguments finds the table, succeeds, and
    leaves the catalog (and the buckets) as the first one left them. *)
Theorem second_registration_changes_nothing
  (database_name table_name location : string) (glue_schema : list (string * string))
  (w w1 : world) :
  create_glue_table_if_not_exists database_name table_name location glue_schema w
  = (Ok tt, w1) ->
  exists w2,
    create_glue_table_if_not_exists database_name table_name location glue_schema w1
    = (Ok tt, w2) /\
    glue w2 = glue w1 /\ s3 w2 = s3 w1.
Proof.
  intros H1.
  assert (exists tables t, glue w1 !! database_name = Some tables /\
                           tables !! table_name = Some t) as (tables & t & Hdb & Ht).
  { destruct (create_glue_table_if_not_exists_spec database_name table_name location
                glue_schema w) as [out Hc].
    rewrite Hc in H1. clear Hc.
    destruct (glue w !! database_name) as [tables|] eqn:Hdb; [|discriminate].
    destruct (tables !! table_name) as [t|] eqn:Ht; inversion H1; subst; simpl.
    - eauto.
    - eexists _, _. rewrite !lookup_insert_eq. eauto. }
  destruct (create_glue_table_if_not_exists_spec database_name table_name location
              glue_schema w1) as [out Hc].
  rewrite Hdb, Ht in Hc. eexists. split; [exact Hc|]. auto.
Qed.

(** ** Further properties of the cast *)

Lemma cast_column_other dt col :
  ~ In dt cast_types -> cast_column dt col = Ok (map Raw col).
Proof.
  intros H. unfold cast_column.
  repeat match goal with
  | |- context [String.eqb dt ?c] =>
      destruct (String.eqb_spec dt c) as [->|_]; [exfalso; apply H; simpl; tauto|]
  end.
  reflexivity.
Qed.

(** X5: a column whose schema type has no branch in the cast (the "int"
    that the lambda itself infers, for one) is left as it was. *)
Theorem cast_leaves_unhandled_types (df : DataFrame value) (glue_schema : dict)
  (df' : DataFrame cell) (name dt : string) (col : list value) :
  List.NoDup (map fst glue_schema) ->
  In (name, dt) glue_schema ->
  ~ In dt cast_types ->
  get_column df name = Some col ->
  cast_dataframe_to_glue_schema df glue_schema = Ok df' ->
  get_column df' name = Some (map Raw col).
Proof.
  intros Hnd Hin Hdt Hcol H.
  destruct (cast_column_of _ _ _ _ _ _ Hnd Hin Hcol H) as (out & Hc & Hout).
  rewrite (cast_column_other _ _ Hdt) in Hc. congruence.
Qed.

Lemma cast_column_safe dt col :
  dt <> "bigint" -> dt <> "timestamp" -> exists new, cast_column dt col = Ok new.
Proof.
  intros Hb Ht. unfold cast_column.
  destruct (String.eqb_spec dt "bigint"); [contradiction|].
  destruct (String.eqb dt "double"); [eauto|].
  destruct (String.eqb dt "boolean"); [eauto|].
  destruct (String.eqb dt "string"); [eauto|].
  destruct (String.eqb_spec dt "timestamp"); [contradiction|eauto].
Qed.

Lemma cast_safe_schema (df : DataFrame value) (glue_schema : dict) :
  (forall name dt, In (name, dt) glue_schema -> dt <> "bigint" /\ dt <> "timestamp") ->
  exists df', cast_dataframe_to_glue_schema df glue_schema = Ok df'.
Proof.
  unfold cast_dataframe_to_glue_schema. generalize (untouched df) as d.
  induction glue_schema as [|[column dt] items IH]; simpl; intros d H; [eauto|].
  assert (forall name dt0, In (name, dt0) items -> dt0 <> "bigint" /\ dt0 <> "timestamp")
    as H' by (intros; eapply H; eauto).
  destruct (get_column df column) as [col|]; [|now apply IH].
  destruct (H column dt (or_introl eq_refl)) as [Hb Ht].
  destruct (cast_column_safe dt col Hb Ht) as [new ->]. simpl. now apply IH.
Qed.

(** X4: only a [bigint] or a [timestamp] column can stop a cast: against a
    schema without these two types the cast returns a frame. *)
Theorem cast_total_without_bigint_timestamp (df : DataFrame value) (glue_schema : dict) :
  (forall name dt, In (name, dt) glue_schema -> dt <> "bigint" /\ dt <> "timestamp") ->
  exists df', cast_dataframe_to_glue_schema df glue_schema = Ok df'.
Proof. apply cast_safe_schema. Qed.











(** ** Properties of schema fetching and inference *)

Lemma dict_get_set d k v name :
  dict_get (dict_set d k v) name = if String.eqb k name then Some v else dict_get d name.
Proof.
  induction d as [|[k' v'] d IH]; simpl; [reflexivity|].
  destruct (String.eqb_spec k' k) as [->|Hne]; simpl.
  - now destruct (String.eqb k name).
  - rewrite IH. destruct (String.eqb_spec k' name) as [->|]; [|reflexivity].
    destruct (String.eqb_spec k name); [congruence|reflexivity].
Qed.

Lemma dict_get_fold columns0 name : forall d,
  dict_get (fold_left (fun d col => dict_set d (fst col) (snd col)) columns0 d) name
  = fold_left (fun acc col => if String.eqb (fst col) name then Some (snd col) else acc)
              columns0 (dict_get d name).
Proof.
  induction columns0 as [|[k v] cs IH]; simpl; intros d; [reflexivity|].
  now rewrite IH, dict_get_set.
Qed.

(** X1: for a table that the catalog has, [get_glue_table_schema] returns,
    without touching the world, a dict with one entry per column name, and
    the type of a name that the table lists more than once is the type of
    its last listing. *)
Theorem fetched_schema_is_a_dict (database_name table_name : string) (w : world) (t : Table) :
  find_table w database_name table_name = Some t ->
  exists d,
    get_glue_table_schema database_name table_name w = (Ok d, w) /\
    List.NoDup (map fst d) /\
    forall name, dict_get d name = last_type (Columns t) name.
Proof.
  intros H. exists (dict_of_columns (Columns t)). split; [|split].
  - now apply get_glue_table_schema_found.
  - apply dict_of_columns_NoDup.
  - intros name. unfold dict_of_columns, last_type. now rewrite dict_get_fold.
Qed.

(** X2: [get_glue_table_schema] only reads: buckets and catalog are as
    before in every case. It raises [EntityNotFoundException] exactly when
    the database or the table is missing, and then (only then) it prints
    one line, which names the table and the database. *)
Theorem schema_fetch_only_reads (database_name table_name : string) (w : world) :
  let '(r, w1) := get_glue_table_schema database_name table_name w in
  s3 w1 = s3 w /\ glue w1 = glue w /\
  match find_table w database_name table_name with
  | Some t => r = Ok (dict_of_columns (Columns t)) /\ stdout w1 = stdout w
  | None =>
      r = Err EntityNotFoundException /\
      stdout w1 = stdout w ++ [Line ("Table " ++ table_name ++ " not found in database "
                                     ++ database_name ++ ".")]
  end.
Proof.
  destruct (find_table w database_name table_name) as [t|] eqn:F.
  - rewrite (get_glue_table_schema_found _ _ _ _ F). auto.
  - rewrite (get_glue_table_schema_missing _ _ _ F). simpl. auto.
Qed.

Lemma infer_glue_schema_map df :
  infer_glue_schema_from_dataframe df
  = map (fun '(column, col) => (column, glue_type_of col)) df.
Proof.
  unfold infer_glue_schema_from_dataframe. apply map_ext. intros [column col].
  unfold glue_type_of. now destruct (dtype_of col).
Qed.

Lemma glue_type_of_inferred col : In (glue_type_of col) inferred_types.
Proof.
  unfold glue_type_of, dtype_of, inferred_types. destruct col as [|v col]; simpl; [tauto|].
  destruct (is_VInt v && forallb is_VInt col); [tauto|].
  destruct (is_VFloat v && forallb is_VFloat col); [tauto|].
  destruct (is_VBool v && forallb is_VBool col); tauto.
Qed.

(** X3: the inferred schema lists the columns of the frame, in the
    frame's order, each with one of the types "int", "double", "boolean"
    and "string": never "bigint", the only integer type the cast knows. *)
Theorem inferred_schema_follows_columns (df : DataFrame value) :
  map fst (infer_glue_schema_from_dataframe df) = columns df /\
  Forall (fun ty => In ty inferred_types /\ ty <> "bigint")
         (map snd (infer_glue_schema_from_dataframe df)).
Proof.
  rewrite infer_glue_schema_map. unfold columns. split.
  - rewrite map_map. apply map_ext. now intros [column col].
  - rewrite map_map. apply List.Forall_forall. intros ty Hin.
    apply in_map_iff in Hin as ([column col] & <- & _). simpl.
    pose proof (glue_type_of_inferred col) as G.
    split; [exact G|]. intros E. rewrite E in G.
    simpl in G. intuition discriminate.
Qed.

Lemma dict_set_fresh (d : dict) k v :
  ~ In k (map fst d) -> dict_set d k v = d ++ [(k, v)].
Proof.
  induction d as [|[k' v'] d IH]; simpl; intros H; [reflexivity|].
  destruct (String.eqb_spec k' k); [tauto|]. rewrite IH; tauto.
Qed.

Lemma NoDup_app_fresh (l1 l2 : list string) k :
  List.NoDup (l1 ++ k :: l2) -> ~ In k l1 /\ List.NoDup ((l1 ++ [k]) ++ l2).
Proof.
  intros H. split.
  - apply NoDup_remove_2 in H. rewrite in_app_iff in H. tauto.
  - now rewrite <- app_assoc.
Qed.

(** A column list without repeated names is its own dict. *)
Lemma dict_of_columns_id (columns0 : list (string * string)) :
  List.NoDup (map fst columns0) -> dict_of_columns columns0 = columns0.
Proof.
  unfold dict_of_columns.
  assert (forall d : dict, List.NoDup (map fst d ++ map fst columns0) ->
            fold_left (fun d col => dict_set d (fst col) (snd col)) columns0 d
            = d ++ columns0) as G.
  { induction columns0 as [|[k v] cs IH]; simpl; intros d H.
    - now rewrite app_nil_r.
    - apply NoDup_app_fresh in H as [Hk H]. rewrite dict_set_fresh by assumption.
      rewrite IH.
      + now rewrite <- app_assoc.
      + now rewrite map_app. }
  intros H. now rewrite G.
Qed.

Lemma forallb_float_recast col :
  forallb is_VFloat col = true -> to_float col = map Raw col.
Proof.
  unfold to_float.
  induction col as [|v col IH]; simpl; [reflexivity|]. intros H.
  apply andb_prop in H as [Hv Hc]. rewrite (IH Hc).
  destruct v; try discriminate; reflexivity.
Qed.

Lemma forallb_bool_recast col :
  forallb is_VBool col = true -> astype_bool col = map Raw col.
Proof.
  unfold astype_bool. induction col as [|v col IH]; simpl; [reflexivity|]. intros H.
  apply andb_prop in H as [Hv Hc]. rewrite (IH Hc).
  destruct v; try discriminate; reflexivity.
Qed.

Lemma cast_column_glue_type_of col :
  cast_column (glue_type_of col) col = Ok (recast col).
Proof.
  unfold glue_type_of, recast, dtype_of. destruct col as [|v col]; [reflexivity|].
  destruct (forallb is_VInt (v :: col)); [reflexivity|].
  destruct (forallb is_VFloat (v :: col)) eqn:F.
  - unfold cast_column. simpl String.eqb. cbv iota. now rewrite forallb_float_recast.
  - destruct (forallb is_VBool (v :: col)) eqn:B; [|reflexivity].
    unfold cast_column. simpl String.eqb. cbv iota. now rewrite forallb_bool_recast.
Qed.

Lemma get_column_In {A} (df : DataFrame A) name col :
  get_column df name = Some col -> In (name, col) df.
Proof.
  induction df as [|[n c] df IH]; simpl; [discriminate|].
  destruct (String.eqb_spec n name) as [->|]; [|auto].
  intros H; inversion H; auto.
Qed.

Lemma cast_inferred_columns (df : DataFrame value) :
  List.NoDup (columns df) ->
  exists df',
    cast_dataframe_to_glue_schema df (dict_of_columns (infer_glue_schema_from_dataframe df))
    = Ok df' /\
    columns df' = columns df /\
    forall name col, get_column df name = Some col ->
                     get_column df' name = Some (recast col).
Proof.
  intros Hnd.
  assert (map fst (infer_glue_schema_from_dataframe df) = columns df) as Hk.
  { rewrite infer_glue_schema_map. unfold columns. rewrite map_map.
    apply map_ext. now intros [c l]. }
  rewrite dict_of_columns_id by now rewrite Hk.
  destruct (cast_safe_schema df (infer_glue_schema_from_dataframe df)) as [df' H].
  { intros name dt Hin. rewrite infer_glue_schema_map in Hin.
    apply in_map_iff in Hin as ([c l] & E & _). inversion E; subst.
    pose proof (glue_type_of_inferred l) as G. simpl in G.
    split; intros E'; rewrite E' in G; intuition discriminate. }
  exists df'. split; [assumption|]. split.
  - unfold cast_dataframe_to_glue_schema in H.
    rewrite (cast_loop_columns _ _ _ _ H). apply columns_untouched.
  - intros name col Hcol.
    destruct (cast_column_of df (infer_glue_schema_from_dataframe df) df' name
                (glue_type_of col) col) as (out & Hc & Hout); auto.
    + now rewrite Hk.
    + rewrite infer_glue_schema_map. apply get_column_In in Hcol.
      apply in_map_iff. now exists (name, col).
    + rewrite cast_column_glue_type_of in Hc. congruence.
Qed.


(** ** Further properties of the registration *)

Lemma find_table_insert (g : gmap string (gmap string Table)) tables
  database_name table_name t s3' out db' tbl' :
  g !! database_name = Some tables ->
  find_table {| s3 := s3'; glue := <[database_name := <[table_name := t]> tables]> g;
                stdout := out |} db' tbl'
  = if decide (database_name = db' /\ table_name = tbl') then Some t
    else find_table {| s3 := s3'; glue := g; stdout := out |} db' tbl'.
Proof.
  intros Hg. unfold find_table. simpl.
  destruct (decide (database_name = db')) as [<-|Hd].
  - rewrite lookup_insert_eq, Hg.
    destruct (decide (table_name = tbl')) as [<-|Ht].
    + rewrite lookup_insert_eq. now rewrite decide_True.
    + rewrite lookup_insert_ne by assumption. rewrite decide_False; tauto.
  - rewrite lookup_insert_ne by assumption. rewrite decide_False; tauto.
Qed.

(** X10: a registration never changes or removes a table that exists,
    whatever its name and whatever the outcome, and never touches a bucket. *)
Theorem registration_keeps_existing_tables
  (database_name table_name location : string) (glue_schema : list (string * string))
  (w w1 : world) (r : result unit) (db' tbl' : string) (t : Table) :
  create_glue_table_if_not_exists database_name table_name location glue_schema w = (r, w1) ->
  find_table w db' tbl' = Some t ->
  find_table w1 db' tbl' = Some t /\ s3 w1 = s3 w.
Proof.
  destruct (create_glue_table_if_not_exists_spec database_name table_name location
              glue_schema w) as [out ->].
  destruct (glue w !! database_name) as [tables|] eqn:Hdb.
  - destruct (tables !! table_name) as [t0|] eqn:Ht; intros H F; inversion H; subst.
    + auto.
    + split; [|reflexivity]. rewrite (find_table_insert _ _ _ _ _ _ _ _ _ Hdb).
      destruct (decide (database_name = db' /\ table_name = tbl')) as [[<- <-]|_].
      * unfold find_table in F. rewrite Hdb, Ht in F. discriminate.
      * exact F.
  - intros H F; inversion H; subst. auto.
Qed.

(** X11: a registration raises only when the database is missing, and
    then the catalog is as before. Otherwise the table exists afterwards:
    it is the table that was there already, whatever schema was passed, or
    else the external, uncompressed Parquet table of the schema and
    location passed. *)
Theorem registration_outcome
  (database_name table_name location : string) (glue_schema : list (string * string))
  (w : world) :
  let '(r, w1) :=
    create_glue_table_if_not_exists database_name table_name location glue_schema w in
  match glue w !! database_name with
  | None => r = Err EntityNotFoundException /\ glue w1 = glue w
  | Some tables =>
      r = Ok tt /\
      find_table w1 database_name table_name =
      Some (match tables !! table_name with
            | Some t => t
            | None =>
                {| Name := table_name;
                   Columns := glue_schema;
                   Location := location;
                   InputFormat := "org.apache.hadoop.hive.ql.io.parquet.MapredParquetInputFormat";
                   OutputFormat := "org.apache.hadoop.hive.ql.io.parquet.MapredParquetOutputFormat";
                   Compressed := false;
                   SerializationLibrary :=
                     "org.apache.hadoop.hive.ql.io.parquet.serde.ParquetHiveSerDe";
                   TableType := "EXTERNAL_TABLE" |}
            end)
  end.
Proof.
  destruct (create_glue_table_if_not_exists_spec database_name table_name location
              glue_schema w) as [out ->].
  destruct (glue w !! database_name) as [tables|] eqn:Hdb; [|auto].
  destruct (tables !! table_name) as [t0|] eqn:Ht.
  - split; [reflexivity|]. unfold find_table. simpl. now rewrite Hdb.
  - split; [reflexivity|]. rewrite (find_table_insert _ _ _ _ _ _ _ _ _ Hdb).
    rewrite decide_True; auto.
Qed.

(** ** Further properties of the invocation *)

Lemma lambda_handler_cons record rest w :
  lambda_handler {| Records := record :: rest |} w =
  match handler_body (bucket_name record) (unquote_plus (object_key record)) w with
  | (Ok r, w') => (Ok r, w')
  | (Err e, w') =>
      (Err e, with_stdout w' (stdout w' ++ [LineExn e;
                                           error_line (unquote_plus (object_key record))
                                                      (bucket_name record)]))
  end.
Proof.
  unfold lambda_handler, try_except. simpl.
  destruct (handler_body _ _ w) as [[r|e] w']; [reflexivity|].
  unfold bind, print, raise, with_stdout, error_line. simpl.
  now rewrite <- app_assoc.
Qed.

(** The body of the outer [try] on a readable source object. *)
Lemma handler_body_read bucket key w objects content df :
  s3 w !! bucket = Some objects ->
  objects !! key = Some content ->
  read_items content = Ok df ->
  handler_body bucket key w =
  match resolve_and_cast df w with
  | (Ok out, w1) =>
      match to_parquet out with
      | Ok artifact =>
          match s3 w !! os_input_s3_cleansed_layer with
          | Some dest =>
              (Ok (success key),
               with_s3 w1 (<[os_input_s3_cleansed_layer :=
                             <[replace key ".json" ".parquet" := artifact]> dest]> (s3 w)))
          | None => (Err NoSuchBucket, w1)
          end
      | Err e => (Err e, w1)
      end
  | (Err e, w1) => (Err e, w1)
  end.
Proof.
  intros Hb Hk Hr. unfold handler_body, bind, get_object, lift. rewrite Hb, Hk, Hr.
  destruct (resolve_and_cast df w) as [[out|e] w1] eqn:Hres; [|reflexivity].
  destruct (resolve_and_cast_frame _ _ _ _ Hres) as [Hs3 _].
  destruct (to_parquet out) as [artifact|e]; [|reflexivity].
  unfold put_object, ret. rewrite Hs3.
  now destruct (s3 w !! os_input_s3_cleansed_layer).
Qed.

(** The body of the outer [try] on a source object that cannot be read. *)
Lemma handler_body_unread bucket key w :
  match s3 w !! bucket with
  | None => handler_body bucket key w = (Err NoSuchBucket, w)
  | Some objects =>
      match objects !! key with
      | None => handler_body bucket key w = (Err NoSuchKey, w)
      | Some content =>
          forall e, read_items content = Err e -> handler_body bucket key w = (Err e, w)
      end
  end.
Proof.
  unfold handler_body, bind, get_object, lift.
  destruct (s3 w !! bucket) as [objects|]; [|reflexivity].
  destruct (objects !! key) as [content|]; [|reflexivity].
  intros e ->. reflexivity.
Qed.

Lemma resolve_and_cast_keeps_tables df w r w1 db' tbl' t :
  resolve_and_cast df w = (r, w1) ->
  find_table w db' tbl' = Some t ->
  find_table w1 db' tbl' = Some t.
Proof.
  destruct (find_table w os_input_glue_catalog_db_name os_input_glue_catalog_table_name)
    as [t0|] eqn:F.
  - rewrite (resolve_and_cast_found _ _ _ F). intros H; inversion H; subst. auto.
  - destruct (resolve_and_cast_missing df _ F) as [out ->].
    destruct (glue w !! os_input_glue_catalog_db_name) as [tables|] eqn:G;
      intros H F'; inversion H; subst.
    + rewrite (find_table_insert _ _ _ _ _ _ _ _ _ G).
      destruct (decide (os_input_glue_catalog_db_name = db' /\
                        os_input_glue_catalog_table_name = tbl')) as [[<- <-]|_];
        [congruence|exact F'].
    + exact F'.
Qed.

Lemma handler_body_keeps_tables bucket key w r w' db' tbl' t :
  handler_body bucket key w = (r, w') ->
  find_table w db' tbl' = Some t ->
  find_table w' db' tbl' = Some t.
Proof.
  intros H F. pose proof (handler_body_unread bucket key w) as U.
  destruct (s3 w !! bucket) as [objects|] eqn:Hb; [|congruence].
  destruct (objects !! key) as [content|] eqn:Hk; [|congruence].
  destruct (read_items content) as [df|e] eqn:Hr;
    [|rewrite (U e eq_refl) in H; congruence].
  rewrite (handler_body_read _ _ _ _ _ _ Hb Hk Hr) in H.
  destruct (resolve_and_cast df w) as [[out|e] w1] eqn:Hres.
  - pose proof (resolve_and_cast_keeps_tables _ _ _ _ _ _ _ Hres F) as F1.
    destruct (to_parquet out); [|inversion H; subst; exact F1].
    destruct (s3 w !! os_input_s3_cleansed_layer); inversion H; subst; exact F1.
  - inversion H; subst. eapply resolve_and_cast_keeps_tables; eauto.
Qed.

(** X12: an invocation never changes or removes a table that the catalog
    has, whatever the event and whether it succeeds or raises. *)
Theorem invocation_keeps_existing_tables (ev : event) (w w' : world) (r : result response)
  (db' tbl' : string) (t : Table) :
  lambda_handler ev w = (r, w') ->
  find_table w db' tbl' = Some t ->
  find_table w' db' tbl' = Some t.
Proof.
  destruct ev as [[|record rest]].
  - intros H; inversion H; subst. auto.
  - rewrite lambda_handler_cons.
    destruct (handler_body _ _ w) as [[r0|e] w0] eqn:Hb; intros H F; inversion H; subst;
      apply (handler_body_keeps_tables _ _ _ _ _ _ _ _ Hb F).
Qed.

(** X13: an invocation that raises can still have changed the catalog:
    when the table is missing, the source document is readable and the
    destination bucket does not exist, the inferred schema is registered
    before the invocation raises (what [to_parquet] raises on the
    flattened frame, or else the [NoSuchBucket] of [put_object]), and the
    table stays. *)
Theorem failed_write_leaves_table_registered (record : s3_record) (rest : list s3_record)
  (w : world) (objects : gmap string s3_body) (content : s3_body)
  (df : DataFrame value) (tables : gmap string Table) :
  s3 w !! bucket_name record = Some objects ->
  objects !! unquote_plus (object_key record) = Some content ->
  read_items content = Ok df ->
  glue w !! os_input_glue_catalog_db_name = Some tables ->
  tables !! os_input_glue_catalog_table_name = None ->
  s3 w !! os_input_s3_cleansed_layer = None ->
  exists w',
    lambda_handler {| Records := record :: rest |} w
    = (Err match to_parquet (untouched df) with
           | Ok _ => NoSuchBucket
           | Err e => e
           end, w') /\
    s3 w' = s3 w /\
    find_table w' os_input_glue_catalog_db_name os_input_glue_catalog_table_name
    = Some (table_input os_input_glue_catalog_table_name s3_location
                        (infer_glue_schema_from_dataframe df)).
Proof.
  intros Hb Hk Hr Hg Ht Hd. rewrite lambda_handler_cons.
  rewrite (handler_body_read _ _ _ _ _ _ Hb Hk Hr).
  assert (find_table w os_input_glue_catalog_db_name os_input_glue_catalog_table_name = None)
    as F by (unfold find_table; now rewrite Hg).
  destruct (resolve_and_cast_missing df _ F) as [out ->]. rewrite Hg, Hd.
  destruct (to_parquet (untouched df)) as [artifact|e];
    (eexists; split; [reflexivity|]; split; [reflexivity|];
     unfold with_stdout; simpl; rewrite (find_table_insert _ _ _ _ _ _ _ _ _ Hg);
     rewrite decide_True; auto).
Qed.

(** X17: when the source bucket or the source object is missing, the
    invocation raises [NoSuchBucket] or [NoSuchKey] without consulting the
    catalog: buckets and catalog are as before, and the only output is the
    exception and the line that names the decoded key and the bucket. *)
Theorem missing_source_fails_before_catalog (record : s3_record) (rest : list s3_record)
  (w : world) :
  (s3 w !! bucket_name record) ≫= (fun objects => objects !! unquote_plus (object_key record))
  = None ->
  exists e,
    e = match s3 w !! bucket_name record with
        | Some _ => NoSuchKey
        | None => NoSuchBucket
        end /\
    lambda_handler {| Records := record :: rest |} w =
    (Err e,
     {| s3 := s3 w; glue := glue w;
        stdout := stdout w ++ [LineExn e;
                               error_line (unquote_plus (object_key record))
                                          (bucket_name record)] |}).
Proof.
  intros H. rewrite lambda_handler_cons.
  pose proof (handler_body_unread (bucket_name record) (unquote_plus (object_key record)) w) as U.
  destruct (s3 w !! bucket_name record) as [objects|]; simpl in H.
  - rewrite H in U. rewrite U. eexists. split; reflexivity.
  - rewrite U. eexists. split; reflexivity.
Qed.

(** What a successful invocation has read, resolved and stored. *)
Lemma lambda_handler_ok_inv record rest w r w' :
  lambda_handler {| Records := record :: rest |} w = (Ok r, w') ->
  exists objects content df out w1 dest,
    s3 w !! bucket_name record = Some objects /\
    objects !! unquote_plus (object_key record) = Some content /\
    read_items content = Ok df /\
    resolve_and_cast df w = (Ok out, w1) /\
    s3 w !! os_input_s3_cleansed_layer = Some dest /\
    r = success (unquote_plus (object_key record)) /\
    w' = with_s3 w1 (<[os_input_s3_cleansed_layer :=
                       <[replace (unquote_plus (object_key record)) ".json" ".parquet"
                         := ParquetFile out]> dest]> (s3 w)) /\
    to_parquet out = Ok (ParquetFile out).
Proof.
  rewrite lambda_handler_cons.
  pose proof (handler_body_unread (bucket_name record) (unquote_plus (object_key record)) w) as U.
  destruct (s3 w !! bucket_name record) as [objects|] eqn:Hb; [|rewrite U; discriminate].
  destruct (objects !! unquote_plus (object_key record)) as [content|] eqn:Hk;
    [|rewrite U; discriminate].
  destruct (read_items content) as [df|e] eqn:Hr; [|rewrite (U e eq_refl); discriminate].
  rewrite (handler_body_read _ _ _ _ _ _ Hb Hk Hr).
  destruct (resolve_and_cast df w) as [[out|e] w1] eqn:Hres; [|discriminate].
  destruct (to_parquet out) as [artifact|e] eqn:Hp; [|discriminate].
  apply to_parquet_ok in Hp as Ha. subst artifact.
  destruct (s3 w !! os_input_s3_cleansed_layer) as [dest|] eqn:Hd; [|discriminate].
  intros H; inversion H; subst.
  exists objects, content, df, out, w1, dest. repeat split; auto.
Qed.

(** After the artifact is stored, the source object is still there, unless
    it is the very object the artifact was stored as. *)
Lemma source_survives (m : gmap string (gmap string s3_body)) bucket key layer s3_key
  objects content dest art :
  m !! bucket = Some objects ->
  objects !! key = Some content ->
  m !! layer = Some dest ->
  bucket <> layer \/ s3_key <> key ->
  exists objects',
    <[layer := <[s3_key := art]> dest]> m !! bucket = Some objects' /\
    objects' !! key = Some content.
Proof.
  intros Hb Hk Hd Hne. destruct (decide (bucket = layer)) as [->|Hbl].
  - rewrite lookup_insert_eq. eexists. split; [reflexivity|].
    rewrite lookup_insert_ne by (destruct Hne; congruence). congruence.
  - rewrite lookup_insert_ne by congruence. eauto.
Qed.

Lemma with_s3_id (w : world) : with_s3 w (s3 w) = w.
Proof. now destruct w. Qed.

(** X14: with the table in the catalog, repeating a successful invocation
    on the world it left gives the same result and leaves that world
    exactly as it is, provided the artifact was not stored over the source
    object itself. *)
Theorem rerun_with_table_changes_nothing (record : s3_record) (rest : list s3_record)
  (w w1 : world) (r : response) (t : Table) :
  lambda_handler {| Records := record :: rest |} w = (Ok r, w1) ->
  find_table w os_input_glue_catalog_db_name os_input_glue_catalog_table_name = Some t ->
  bucket_name record <> os_input_s3_cleansed_layer \/
  replace (unquote_plus (object_key record)) ".json" ".parquet"
  <> unquote_plus (object_key record) ->
  lambda_handler {| Records := record :: rest |} w1 = (Ok r, w1).
Proof.
  intros H F Hne.
  apply lambda_handler_ok_inv in H
    as (objects & content & df & out & w0 & dest & Hb & Hk & Hr & Hres & Hd & -> & -> & Hp).
  rewrite (resolve_and_cast_found _ _ _ F) in Hres. inversion Hres as [[Hc Hw]]. subst w0.
  destruct (source_survives _ _ _ _ _ _ _ _
              (ParquetFile out) Hb Hk Hd Hne) as (objects' & Hb' & Hk').
  rewrite lambda_handler_cons.
  rewrite (handler_body_read _ _ (with_s3 w _) objects' content df Hb' Hk' Hr).
  rewrite (resolve_and_cast_found df (with_s3 w _) t F), Hc, Hp.
  simpl. rewrite lookup_insert_eq. unfold with_s3. simpl.
  now rewrite !insert_insert_eq.
Qed.

Lemma dict_set_values (d : dict) k v k' v' :
  In (k', v') (dict_set d k v) -> v' = v \/ In v' (map snd d).
Proof.
  induction d as [|[k0 v0] d IH]; simpl.
  - intros [E|[]]. inversion E. auto.
  - destruct (String.eqb k0 k); simpl; intros [E|Hin].
    + inversion E. auto.
    + right. right. change v' with (snd (k', v')). now apply in_map.
    + inversion E. auto.
    + destruct (IH Hin); auto.
Qed.

Lemma dict_of_columns_values columns0 k v :
  In (k, v) (dict_of_columns columns0) -> In v (map snd columns0).
Proof.
  unfold dict_of_columns.
  assert (forall d : dict,
            In (k, v) (fold_left (fun d col => dict_set d (fst col) (snd col)) columns0 d) ->
            In v (map snd d) \/ In v (map snd columns0)) as G.
  { induction columns0 as [|[k0 v0] cs IH]; simpl; intros d H.
    - left. change v with (snd (k, v)). now apply in_map.
    - apply IH in H as [H|H]; [|auto].
      apply in_map_iff in H as ([k1 v1] & E & Hin). simpl in E. subst v1.
      apply dict_set_values in Hin as [->|Hin]; auto. }
  intros H. apply G in H as [[]|H]. exact H.
Qed.

Lemma first_error_None cols :
  first_error cols = None -> forall c, In c cols -> column_error c = None.
Proof.
  induction cols as [|c0 cols IH]; simpl; [tauto|].
  destruct (column_error c0) eqn:E; [discriminate|].
  intros H c [<-|Hin]; auto.
Qed.

Lemma first_error_None_intro cols :
  (forall c, In c cols -> column_error c = None) -> first_error cols = None.
Proof.
  induction cols as [|c0 cols IH]; simpl; intros H; [reflexivity|].
  rewrite (H c0) by auto. apply IH. auto.
Qed.

Lemma has_duplicates_NoDup l : has_duplicates l = false -> List.NoDup l.
Proof.
  induction l as [|x l IH]; simpl; intros H; constructor.
  - apply orb_false_elim in H as [H _]. intros Hin.
    assert (existsb (String.eqb x) l = true) as E; [|congruence].
    apply existsb_exists. exists x. split; [assumption|apply String.eqb_refl].
  - apply IH. now apply orb_false_elim in H as [_ H].
Qed.

Lemma In_get_column {A} (df : DataFrame A) name col :
  List.NoDup (columns df) -> In (name, col) df -> get_column df name = Some col.
Proof.
  unfold columns. induction df as [|[n c] df IH]; simpl; [tauto|].
  intros Hnd [E|Hin]; inversion Hnd; subst.
  - inversion E; subst. now rewrite String.eqb_refl.
  - destruct (String.eqb_spec n name) as [->|]; [|auto].
    exfalso. match goal with H : ~ In _ _ |- _ => apply H end.
    change name with (fst (name, col)). now apply in_map.
Qed.

Lemma in_columns_get {A} (df : DataFrame A) name :
  In name (columns df) -> exists col, get_column df name = Some col.
Proof.
  unfold columns. induction df as [|[n c] df IH]; simpl; [tauto|].
  destruct (String.eqb_spec n name) as [->|Hne]; [eauto|].
  intros [E|Hin]; [contradiction|auto].
Qed.

Lemma astype_str_all_text col : forallb is_text (astype_str col) = true.
Proof. unfold astype_str. induction col; simpl; auto. Qed.

Lemma recast_encodes col :
  column_error (map Raw col) = None -> column_error (recast col) = None.
Proof.
  unfold recast. destruct (dtype_of col); auto. intros _.
  unfold column_error. now rewrite astype_str_all_text.
Qed.

(** A frame that pyarrow has encoded is encoded again after a cast
    against the schema inferred from it. *)
Lemma recast_frame_encodes df :
  to_parquet (untouched df) = Ok (ParquetFile (untouched df)) ->
  exists out,
    cast_dataframe_to_glue_schema df (dict_of_columns (infer_glue_schema_from_dataframe df))
    = Ok out /\
    to_parquet out = Ok (ParquetFile out).
Proof.
  unfold to_parquet at 1. rewrite columns_untouched.
  destruct (has_duplicates (columns df)) eqn:D; [discriminate|].
  destruct (first_error (map snd (untouched df))) eqn:E; [discriminate|]. intros _.
  apply has_duplicates_NoDup in D as Hnd.
  destruct (cast_inferred_columns df Hnd) as (out & Hc & Hcols & Hget).
  exists out. split; [assumption|].
  unfold to_parquet. rewrite Hcols, D.
  rewrite first_error_None_intro; [reflexivity|].
  intros c Hin. apply in_map_iff in Hin as ([n c'] & <- & Hin). simpl.
  assert (get_column out n = Some c') as G
    by (apply In_get_column; [now rewrite Hcols|assumption]).
  destruct (in_columns_get df n) as [col Hcol].
  { rewrite <- Hcols. change n with (fst (n, c')). now apply in_map. }
  rewrite (Hget _ _ Hcol) in G. inversion G; subst c'.
  apply recast_encodes. apply (first_error_None _ E).
  apply get_column_In in Hcol. apply in_map_iff.
  exists (n, map Raw col). split; [reflexivity|].
  unfold untouched. apply in_map_iff. now exists (n, col).
Qed.

(** X15: after an invocation that found no table and succeeded, the same
    event succeeds again (provided the artifact was not stored over the
    source object itself): this time the table is found, the catalog stays
    as it is, and the artifact is replaced by the frame cast against the
    schema that the first invocation inferred. *)
Theorem rerun_after_registration_casts (record : s3_record) (rest : list s3_record)
  (w w1 : world) (r : response) :
  lambda_handler {| Records := record :: rest |} w = (Ok r, w1) ->
  find_table w os_input_glue_catalog_db_name os_input_glue_catalog_table_name = None ->
  bucket_name record <> os_input_s3_cleansed_layer \/
  replace (unquote_plus (object_key record)) ".json" ".parquet"
  <> unquote_plus (object_key record) ->
  exists objects content df out w2,
    s3 w !! bucket_name record = Some objects /\
    objects !! unquote_plus (object_key record) = Some content /\
    read_items content = Ok df /\
    cast_dataframe_to_glue_schema df (dict_of_columns (infer_glue_schema_from_dataframe df))
    = Ok out /\
    lambda_handler {| Records := record :: rest |} w1 = (Ok r, w2) /\
    glue w2 = glue w1 /\
    (s3 w2 !! os_input_s3_cleansed_layer)
      ≫= (fun dest => dest !! replace (unquote_plus (object_key record)) ".json" ".parquet")
    = Some (ParquetFile out).
Proof.
  intros H F Hne.
  apply lambda_handler_ok_inv in H
    as (objects & content & df & out0 & w0 & dest & Hb & Hk & Hr & Hres & Hd & -> & -> & Hp).
  destruct (resolve_and_cast_missing df _ F) as [o Hm]. rewrite Hm in Hres.
  destruct (glue w !! os_input_glue_catalog_db_name) as [tables|] eqn:G; [|discriminate].
  inversion Hres; subst out0 w0; clear Hres.
  destruct (recast_frame_encodes df Hp) as (out & Hc & Hp').
  destruct (source_survives _ _ _ _ _ _ _ _
              (ParquetFile (untouched df)) Hb Hk Hd Hne) as (objects' & Hb' & Hk').
  match goal with
  | |- context [lambda_handler _ ?w1] => set (w1' := w1)
  end.
  assert (find_table w1' os_input_glue_catalog_db_name os_input_glue_catalog_table_name
          = Some (table_input os_input_glue_catalog_table_name s3_location
                              (infer_glue_schema_from_dataframe df))) as F1.
  { unfold w1', with_s3. simpl. rewrite (find_table_insert _ _ _ _ _ _ _ _ _ G).
    rewrite decide_True; auto. }
  exists objects, content, df, out. eexists.
  do 4 (split; [eassumption|]).
  split; [|split].
  - rewrite lambda_handler_cons.
    rewrite (handler_body_read _ _ w1' objects' content df Hb' Hk' Hr).
    rewrite (resolve_and_cast_found df w1' _ F1). simpl Columns. rewrite Hc, Hp'.
    unfold w1' at 1. simpl s3. rewrite lookup_insert_eq. reflexivity.
  - reflexivity.
  - simpl. rewrite lookup_insert_eq. simpl. now rewrite lookup_insert_eq.
Qed.

(** X16: when the source bucket is the destination bucket and the decoded
    key holds no ".json", a successful invocation stores the artifact over
    its own source document, and the same event then raises [ValueError]:
    the object is no JSON document any more. *)
Theorem artifact_can_overwrite_source (record : s3_record) (rest : list s3_record)
  (w w1 : world) (r : response) :
  lambda_handler {| Records := record :: rest |} w = (Ok r, w1) ->
  bucket_name record = os_input_s3_cleansed_layer ->
  occurs ".json" (unquote_plus (object_key record)) = false ->
  exists out w2,
    (s3 w1 !! bucket_name record)
      ≫= (fun objects => objects !! unquote_plus (object_key record))
    = Some (ParquetFile out) /\
    lambda_handler {| Records := record :: rest |} w1 = (Err ValueError, w2) /\
    s3 w2 = s3 w1 /\ glue w2 = glue w1.
Proof.
  intros H Hbl Hocc.
  apply lambda_handler_ok_inv in H
    as (objects & content & df & out & w0 & dest & Hb & Hk & Hr & Hres & Hd & -> & -> & _).
  rewrite (replace_absent _ _ _ Hocc). rewrite Hbl in *.
  exists out. eexists. split; [|split].
  - simpl. rewrite lookup_insert_eq. simpl. now rewrite lookup_insert_eq.
  - rewrite lambda_handler_cons. rewrite Hbl.
    match goal with
    | |- context [handler_body ?b ?k ?w1] =>
        pose proof (handler_body_unread b k w1) as U
    end.
    simpl s3 in U. rewrite lookup_insert_eq, lookup_insert_eq in U.
    rewrite (U ValueError eq_refl). reflexivity.
  - split; reflexivity.
Qed.

(** ** Properties of the key handling *)

Lemma unquote_plus_length_le n : forall s,
  (String.length s <= n)%nat -> (String.length (unquote_plus s) <= String.length s)%nat.
Proof.
  induction n as [|n IH]; intros s Hn.
  - destruct s; simpl in *; lia.
  - destruct s as [|c t]; [simpl; lia|]. simpl in Hn.
    assert (String.length (unquote_plus t) <= String.length t)%nat as Ht
      by (apply IH; lia).
    cbn [unquote_plus].
    destruct (Ascii.eqb c "+"); [simpl; lia|].
    destruct (Ascii.eqb c "%"); [|simpl; lia].
    destruct t as [|h1 [|h2 t']]; try (simpl in *; lia).
    destruct (hex_of h1); [|simpl in *; lia].
    destruct (hex_of h2); [|simpl in *; lia].
    assert (String.length (unquote_plus t') <= String.length t')%nat
      by (apply IH; simpl in Hn; lia).
    simpl. lia.
Qed.

(** X18: decoding never makes a key longer, and a key without ['+'] and
    ['%'] is the key the lambda uses, as it is. *)
Theorem unquote_plus_of_plain_key (s : string) :
  (String.length (unquote_plus s) <= String.length s)%nat /\
  (unescaped s = true -> unquote_plus s = s).
Proof.
  split; [now apply (unquote_plus_length_le (String.length s))|].
  induction s as [|c t IH]; [reflexivity|]. cbn [unescaped unquote_plus].
  destruct (Ascii.eqb c "+"); [discriminate|].
  destruct (Ascii.eqb c "%"); [discriminate|].
  simpl. intros H. now rewrite IH.
Qed.

Lemma prefix_nil s : String.prefix "" s = true.
Proof. now destruct s. Qed.

Lemma replace_from_cons_dotless c t :
  Ascii.eqb c "." = false ->
  replace_from ".json" ".parquet" O (String c t)
  = String c (replace_from ".json" ".parquet" O t).
Proof.
  intros H. rewrite replace_from_cons, prefix_cons.
  destruct (Ascii.ascii_dec "." c) as [<-|]; [discriminate|reflexivity].
Qed.

(** The replacement shows the text it copies up to the first ['.']. *)
Lemma prefix_replace_dotless p : forall t,
  dotless p = true ->
  String.prefix p (replace_from ".json" ".parquet" O t) = true ->
  String.prefix p t = true.
Proof.
  induction p as [|a p IH]; intros t Hp H; [apply prefix_nil|].
  cbn [dotless] in Hp. apply andb_prop in Hp as [Ha Hp].
  apply negb_true_iff in Ha.
  destruct t as [|b t]; [simpl in H; discriminate|].
  destruct (Ascii.eqb b ".") eqn:Hb.
  - apply Ascii.eqb_eq in Hb. subst b. rewrite replace_from_cons in H.
    destruct (String.prefix ".json" (String "." t)).
    + change (".parquet" ++ ?x)%string with (String "." ("parquet" ++ x)) in H.
      rewrite prefix_cons in H |- *.
      destruct (Ascii.ascii_dec a ".") as [->|]; [discriminate|discriminate].
    + rewrite prefix_cons in H |- *.
      destruct (Ascii.ascii_dec a "."); [|discriminate]. now apply IH.
  - rewrite (replace_from_cons_dotless _ _ Hb) in H. rewrite prefix_cons in H |- *.
    destruct (Ascii.ascii_dec a b); [|discriminate]. now apply IH.
Qed.

Lemma prefix_json_split s :
  String.prefix ".json" s = true -> exists u, s = (".json" ++ u)%string.
Proof.
  intros H.
  do 5 (destruct s as [|? s]; [vm_compute in H; discriminate H|];
        rewrite prefix_cons in H;
        match type of H with
        | context [Ascii.ascii_dec ?a ?b] =>
            destruct (Ascii.ascii_dec a b); [subst|discriminate H]
        end).
  now exists s.
Qed.

Lemma replace_leaves_no_json n : forall s,
  (String.length s <= n)%nat ->
  occurs ".json" (replace s ".json" ".parquet") = false.
Proof.
  unfold replace. induction n as [|n IH]; intros s Hn.
  - destruct s; [reflexivity|simpl in Hn; lia].
  - destruct s as [|c t]; [reflexivity|]. simpl in Hn.
    rewrite replace_from_cons.
    destruct (String.prefix ".json" (String c t)) eqn:P.
    + apply prefix_json_split in P as [u E]. inversion E; subst c t.
      change (replace_from ".json" ".parquet" (Nat.pred (String.length ".json"))
                           ("json" ++ u))
        with (replace_from ".json" ".parquet" O u).
      change ("json" ++ u)%string
        with (String "j" (String "s" (String "o" (String "n" u)))) in Hn.
      assert (occurs ".json" (replace_from ".json" ".parquet" O u) = false) as Hu
        by (apply IH; simpl in Hn; lia).
      revert Hu. generalize (replace_from ".json" ".parquet" O u). intros x Hx.
      change (occurs ".json" (String "." (String "p" (String "a" (String "r"
                (String "q" (String "u" (String "e" (String "t" x)))))))) = false).
      rewrite !occurs_cons, !prefix_cons. simpl. exact Hx.
    + rewrite occurs_cons. rewrite (IH t) by lia. rewrite orb_false_r.
      rewrite prefix_cons in P |- *.
      destruct (Ascii.ascii_dec "." c); [|reflexivity].
      destruct (String.prefix "json" (replace_from ".json" ".parquet" O t)) eqn:Q;
        [|reflexivity].
      apply prefix_replace_dotless in Q; [congruence|reflexivity].
Qed.

(** X19: the key an artifact is stored under holds no ".json" any more,
    whatever the source key was. *)
Theorem destination_key_has_no_json (s : string) :
  occurs ".json" (replace s ".json" ".parquet") = false.
Proof. now apply (replace_leaves_no_json (String.length s)). Qed.

(** ** Edge cases of the cast, and the race of two registrations *)

(** X20: schema entries for columns that the batch does not have are
    skipped, whatever their type: against a schema that names no column
    of the batch (the empty schema, for one) the cast returns the batch
    untouched and does not raise. *)
Theorem cast_skips_absent_columns (df : DataFrame value) (glue_schema : dict) :
  (forall name, In name (map fst glue_schema) -> get_column df name = None) ->
  cast_dataframe_to_glue_schema df glue_schema = Ok (untouched df).
Proof.
  unfold cast_dataframe_to_glue_schema. generalize (untouched df) as d.
  induction glue_schema as [|[column dt] items IH]; simpl; intros d H; [reflexivity|].
  rewrite (H column) by auto. apply IH. auto.
Qed.

Lemma rmapM_length {A B} (f : A -> result B) l out :
  rmapM f l = Ok out -> length out = length l.
Proof.
  revert out. induction l as [|x l IH]; simpl; intros out H.
  - now inversion H.
  - destruct (f x); simpl in H; [|discriminate].
    destruct (rmapM f l); simpl in H; [|discriminate].
    inversion H; subst. simpl. f_equal. now apply IH.
Qed.

Lemma cast_column_length dt col new :
  dt <> "timestamp" -> cast_column dt col = Ok new -> length new = length col.
Proof.
  intros Ht. unfold cast_column.
  destruct (String.eqb dt "bigint").
  { unfold to_Int64. destruct (forallb tame col).
    - intros H. apply rmapM_length in H. unfold to_numeric in H.
      now rewrite length_map in H.
    - destruct (wild_Int64_error col); [discriminate|].
      intros H; inversion H. now rewrite length_map. }
  destruct (String.eqb dt "double").
  { intros H; inversion H. unfold to_float. now rewrite length_map. }
  destruct (String.eqb dt "boolean").
  { intros H; inversion H. unfold astype_bool. now rewrite length_map. }
  destruct (String.eqb dt "string").
  { intros H; inversion H. unfold astype_str. now rewrite length_map. }
  destruct (String.eqb_spec dt "timestamp"); [contradiction|].
  intros H; inversion H. now rewrite length_map.
Qed.

(** X22: a cast keeps the number of rows of every column that the schema
    does not type as [timestamp]. *)
Theorem cast_keeps_row_count (df : DataFrame value) (glue_schema : dict)
  (df' : DataFrame cell) (name : string) (col : list value) :
  List.NoDup (map fst glue_schema) ->
  ~ In (name, "timestamp") glue_schema ->
  get_column df name = Some col ->
  cast_dataframe_to_glue_schema df glue_schema = Ok df' ->
  exists col', get_column df' name = Some col' /\ length col' = length col.
Proof.
  intros Hnd Hts Hcol H.
  destruct (in_dec string_dec name (map fst glue_schema)) as [Hin|Hnin].
  - apply in_map_iff in Hin as ([n dt] & E & Hin). simpl in E. subst n.
    destruct (cast_column_of _ _ _ _ _ _ Hnd Hin Hcol H) as (new & Hc & Hnew).
    exists new. split; [assumption|].
    apply (cast_column_length dt); [|assumption]. intros ->. contradiction.
  - unfold cast_dataframe_to_glue_schema in H.
    rewrite (cast_loop_frame _ _ _ _ _ Hnin H), get_column_untouched, Hcol. simpl.
    eexists. split; [reflexivity|]. now rewrite length_map.
Qed.


(** X21: the registration is not atomic. When its [get_table] has answered
    not-found and the table has come to exist by the time its
    [create_table] is sent, [create_table] raises [AlreadyExistsException],
    which the function does not catch; the world stays as the others left
    it. *)
Theorem registration_race_raises (between : world -> world)
  (database_name table_name location : string) (glue_schema : list (string * string))
  (w : world) (t : Table) :
  find_table w database_name table_name = None ->
  let asked :=
    with_stdout w (stdout w ++ [Line ("Table " ++ table_name
                                      ++ " does not exist. Creating with inferred schema...")]) in
  find_table (between asked) database_name table_name = Some t ->
  create_glue_table_if_not_exists_interleaved between
    database_name table_name location glue_schema w
  = (Err AlreadyExistsException, between asked).
Proof.
  intros F asked B.
  unfold create_glue_table_if_not_exists_interleaved, try_except_not_found, try_except, bind.
  rewrite get_table_find, F. unfold print at 1. simpl. fold asked.
  unfold create_table, find_table in *. simpl.
  destruct (glue (between asked) !! database_name) as [tables|]; [|discriminate].
  now rewrite B.
Qed.

(** ** The invocation, step by step *)

Lemma find_table_with_stdout w out database_name table_name :
  find_table (with_stdout w out) database_name table_name
  = find_table w database_name table_name.
Proof. reflexivity. Qed.

(** Schema resolution when the catalog lacks the table, with the world it
    leaves: the table registered, or the lookup's and the registrar's first
    line printed when the database is missing as well. *)
Lemma resolve_and_cast_missing_exact df w :
  find_table w os_input_glue_catalog_db_name os_input_glue_catalog_table_name = None ->
  resolve_and_cast df w =
  match glue w !! os_input_glue_catalog_db_name with
  | None => (Err EntityNotFoundException, with_stdout w (stdout w ++ not_found_lines))
  | Some tables => (Ok (untouched df), registered df tables w)
  end.
Proof.
  intros F. unfold resolve_and_cast, try_except_not_found, try_except, bind.
  rewrite (get_glue_table_schema_missing _ _ _ F).
  unfold create_glue_table_if_not_exists, create_glue_table_if_not_exists_interleaved,
    try_except_not_found, try_except, bind.
  rewrite get_table_find, find_table_with_stdout, F.
  unfold print, create_table, ret, raise, registered, not_found_lines, with_stdout,
    with_glue, find_table in *. simpl.
  destruct (glue w !! os_input_glue_catalog_db_name) as [tables|]; simpl.
  - rewrite F. simpl. now rewrite <- !app_assoc.
  - now rewrite <- !app_assoc.
Qed.

(** Everything an invocation does, over the state of the world. *)
Lemma lambda_handler_steps record rest w :
  let bucket := bucket_name record in
  let key := unquote_plus (object_key record) in
  lambda_handler {| Records := record :: rest |} w =
  match get_object bucket key w with
  | (Err e, _) => reraised key bucket e w
  | (Ok content, _) =>
      match read_items content with
      | Err e => reraised key bucket e w
      | Ok df =>
          match find_table w os_input_glue_catalog_db_name
                           os_input_glue_catalog_table_name with
          | Some t =>
              match cast_dataframe_to_glue_schema df (dict_of_columns (Columns t)) with
              | Err e => reraised key bucket e w
              | Ok out => serialized_and_written key bucket out w
              end
          | None =>
              match glue w !! os_input_glue_catalog_db_name with
              | None =>
                  reraised key bucket EntityNotFoundException
                           (with_stdout w (stdout w ++ not_found_lines))
              | Some tables =>
                  serialized_and_written key bucket (untouched df) (registered df tables w)
              end
          end
      end
  end.
Proof.
  intros bucket key. rewrite lambda_handler_cons. fold bucket key.
  pose proof (handler_body_unread bucket key w) as U. unfold get_object.
  destruct (s3 w !! bucket) as [objects|] eqn:Hb; [|now rewrite U].
  destruct (objects !! key) as [content|] eqn:Hk; [|now rewrite U].
  destruct (read_items content) as [df|e] eqn:Hr; [|now rewrite (U e eq_refl)].
  rewrite (handler_body_read _ _ _ _ _ _ Hb Hk Hr). unfold serialized_and_written.
  destruct (find_table w os_input_glue_catalog_db_name os_input_glue_catalog_table_name)
    as [t|] eqn:F.
  - rewrite (resolve_and_cast_found _ _ _ F).
    destruct (cast_dataframe_to_glue_schema df (dict_of_columns (Columns t))); [|reflexivity].
    destruct (to_parquet a); [|reflexivity].
    now destruct (s3 w !! os_input_s3_cleansed_layer).
  - rewrite (resolve_and_cast_missing_exact _ _ F).
    destruct (glue w !! os_input_glue_catalog_db_name) as [tables|]; [|reflexivity].
    destruct (to_parquet (untouched df)); [|reflexivity]. simpl.
    now destruct (s3 w !! os_input_s3_cleansed_layer).
Qed.

(** C7: an invocation either returns the success value for the decoded
    key, and then the destination bucket differs from before in exactly the
    one stored artifact, or it raises, and then no bucket has changed.
    Whatever a step raises (reading the object, decoding it, casting it,
    registering the table, serializing the frame, storing the artifact) is
    printed, followed by the line that names the key and the bucket, and
    is raised again as it was; when no step raises, the artifact is stored
    and the success value returned. *)
Theorem invocation_writes_all_or_nothing (ev : event) (w : world) :
  match lambda_handler ev w with
  | (Ok r, w') =>
      exists record rest dest out,
        Records ev = record :: rest /\
        r = success (unquote_plus (object_key record)) /\
        s3 w !! os_input_s3_cleansed_layer = Some dest /\
        s3 w' = <[os_input_s3_cleansed_layer :=
                  <[replace (unquote_plus (object_key record)) ".json" ".parquet"
                    := ParquetFile out]> dest]> (s3 w)
  | (Err e, w') =>
      s3 w' = s3 w /\
      forall record rest, Records ev = record :: rest ->
        exists out,
          stdout w' =
          stdout w ++ out ++
          [LineExn e;
           Line ("Error processing object " ++ unquote_plus (object_key record)
                 ++ " from bucket " ++ bucket_name record ++ ".")]
  end /\
  forall record rest, Records ev = record :: rest ->
    let bucket := bucket_name record in
    let key := unquote_plus (object_key record) in
    lambda_handler ev w =
    match get_object bucket key w with
    | (Err e, _) => reraised key bucket e w
    | (Ok content, _) =>
        match read_items content with
        | Err e => reraised key bucket e w
        | Ok df =>
            match find_table w os_input_glue_catalog_db_name
                             os_input_glue_catalog_table_name with
            | Some t =>
                match cast_dataframe_to_glue_schema df (dict_of_columns (Columns t)) with
                | Err e => reraised key bucket e w
                | Ok out => serialized_and_written key bucket out w
                end
            | None =>
                match glue w !! os_input_glue_catalog_db_name with
                | None =>
                    reraised key bucket EntityNotFoundException
                             (with_stdout w (stdout w ++ not_found_lines))
                | Some tables =>
                    serialized_and_written key bucket (untouched df)
                                           (registered df tables w)
                end
            end
        end
    end.
Proof.
  split.
  - unfold lambda_handler. destruct (Records ev) as [|record rest].
    + simpl. split; [reflexivity|]. discriminate.
    + unfold try_except.
      pose proof (handler_body_spec (bucket_name record)
                    (unquote_plus (object_key record)) w) as S.
      destruct (handler_body _ _ w) as [[r0|e] w0].
      * destruct S
          as (objects & content & df & out & w1 & dest & _ & _ & _ & _ & Hd & Hs & _ & _ & Hr).
        exists record, rest, dest, out. auto.
      * destruct S as [Hs [out Ho]]. unfold bind, print, raise. simpl.
        split; [assumption|]. intros record' rest' Heq. inversion Heq; subst.
        exists out. rewrite Ho, <- !app_assoc. reflexivity.
  - intros record rest E. destruct ev as [records]. simpl in E. subst records.
    apply lambda_handler_steps.
Qed.

(** C10: only [event['Records'][0]] counts. The invocation does what it
    would do on an event with that record alone, and an event without
    records raises [IndexError] before anything else happens. The object
    that is fetched is the one record 0 names: when it cannot be fetched
    the invocation raises what [get_object] raised, and when it is fetched,
    decoded and cast, it is this one frame that is serialized and stored,
    under a key made from the key of record 0, which the result names. *)
Theorem only_first_record_is_processed (record : s3_record) (rest : list s3_record)
  (w : world) :
  let bucket := bucket_name record in
  let key := unquote_plus (object_key record) in
  lambda_handler {| Records := record :: rest |} w
  = lambda_handler {| Records := [record] |} w /\
  lambda_handler {| Records := [] |} w = (Err IndexError, w) /\
  match lambda_handler {| Records := record :: rest |} w with
  | (Ok r, w') =>
      r = success key /\
      exists objects,
        s3 w !! bucket = Some objects /\
        is_Some (objects !! key)
  | (Err _, _) => True
  end /\
  (forall e, get_object bucket key w = (Err e, w) ->
             lambda_handler {| Records := record :: rest |} w = reraised key bucket e w) /\
  (forall content df t out,
      get_object bucket key w = (Ok content, w) ->
      read_items content = Ok df ->
      find_table w os_input_glue_catalog_db_name os_input_glue_catalog_table_name = Some t ->
      cast_dataframe_to_glue_schema df (dict_of_columns (Columns t)) = Ok out ->
      lambda_handler {| Records := record :: rest |} w
      = serialized_and_written key bucket out w) /\
  (forall content df tables,
      get_object bucket key w = (Ok content, w) ->
      read_items content = Ok df ->
      find_table w os_input_glue_catalog_db_name os_input_glue_catalog_table_name = None ->
      glue w !! os_input_glue_catalog_db_name = Some tables ->
      lambda_handler {| Records := record :: rest |} w
      = serialized_and_written key bucket (untouched df) (registered df tables w)).
Proof.
  intros bucket key.
  split; [reflexivity|]. split; [reflexivity|]. split; [|split; [|split]].
  - unfold lambda_handler. simpl. unfold try_except.
    pose proof (handler_body_spec bucket key w) as S. fold bucket key.
    destruct (handler_body _ _ w) as [[r0|e] w0].
    + destruct S
        as (objects & content & df & out & w1 & dest & Hb & Hk & _ & _ & _ & _ & _ & _ & Hr).
      split; [assumption|]. exists objects. split; [assumption|]. now exists content.
    + unfold bind, print, raise. simpl. exact I.
  - intros e H. rewrite lambda_handler_steps. fold bucket key. now rewrite H.
  - intros content df t out H Hr F Hc. rewrite lambda_handler_steps. fold bucket key.
    now rewrite H, Hr, F, Hc.
  - intros content df tables H Hr F G. rewrite lambda_handler_steps. fold bucket key.
    now rewrite H, Hr, F, G.
Qed.

End Lambda.








(** ** The properties on the example data *)


Abbreviation example_cast :=
  (cast_dataframe_to_glue_schema unused_str_of_float unused_to_datetime unused_Int64_error unused_Int64_cell unused_float_cell).
Abbreviation example_handler :=
  (lambda_handler unused_str_of_float unused_to_datetime unused_Int64_error unused_Int64_cell unused_float_cell example_arrow_error
                  "clean" "db_youtube_cleaned" "raw_statistics").

Lemma flags_schema_NoDup : List.NoDup (map fst flags_schema).
Proof.
  repeat constructor; simpl; intuition discriminate.
Qed.

(** C3: a [bigint] column with a value that parses as a number with a
    fraction stops the cast with pandas' [TypeError], whatever the two
    library functions are; the invocation that meets it on a registered
    table raises and stores nothing. *)
Theorem bigint_cast_raises_on_fraction
  (str_of_float : Q -> string) (to_datetime : list value -> option (list cell))
  (wild_Int64_error : list value -> option pandas_error)
  (wild_Int64_cell : list value -> value -> cell) (wild_float_cell : value -> cell)
  (arrow_error : list cell -> option exn) :
  cast_column str_of_float to_datetime wild_Int64_error wild_Int64_cell wild_float_cell
    "bigint" [VStr "1000"; VStr "12.5"] = Err TypeError /\
  cast_dataframe_to_glue_schema str_of_float to_datetime
    wild_Int64_error wild_Int64_cell wild_float_cell statistics
    (dict_of_columns (Columns statistics_table)) = Err TypeError /\
  let run := lambda_handler str_of_float to_datetime
               wild_Int64_error wild_Int64_cell wild_float_cell arrow_error
               "clean" "db_youtube_cleaned" "raw_statistics"
               (notification "stats/US.json") world_with_table in
  fst run = Err TypeError /\ s3 (snd run) = s3 world_with_table.
Proof. vm_compute. repeat split. Qed.

(** Against C1: with no table in the catalog the invocation succeeds and
    the stored artifact is the flattened frame, null title included,
    although casting that frame against the schema it inferred would have
    turned the null into the text "None". *)
Lemma fetch_miss_serializes_raw_batch :
  let run := example_handler (notification "ref/US.json") world_without_table in
  fst run = Ok (success "ref/US.json") /\
  s3 (snd run) !! "clean"
  = Some {[ "ref/US.parquet" :=
              ParquetFile [("id", [Raw (VStr "1"); Raw (VStr "2")]);
                           ("snippet.title", [Raw (VStr "Film"); Raw VNone])] ]} /\
  infer_glue_schema_from_dataframe categories
  = [("id", "string"); ("snippet.title", "string")] /\
  example_cast categories (infer_glue_schema_from_dataframe categories)
  = Ok [("id", [Raw (VStr "1"); Raw (VStr "2")]);
        ("snippet.title", [Raw (VStr "Film"); Raw (VStr "None")])].
Proof. vm_compute. repeat split. Qed.

(** Against C2: a ".json" inside the path is replaced as well, so the
    artifact of "v1.json/US.json" is not stored under "v1.json/US.parquet". *)
Lemma inner_json_is_replaced_too :
  let run := example_handler (notification "v1.json/US.json") world_without_table in
  fst run = Ok (success "v1.json/US.json") /\
  s3 (snd run) !! "clean"
  = Some {[ "v1.parquet/US.parquet" := ParquetFile (untouched categories) ]} /\
  (s3 (snd run) !! "clean") ≫= (fun objects => objects !! "v1.json/US.parquet") = None.
Proof. vm_compute. repeat split. Qed.

(** Against C5: when another invocation registers the table after this
    one's [get_table] has answered not-found, this one's [create_table]
    raises [AlreadyExistsException], and nothing catches it. *)
Lemma registration_fails_when_table_appears :
  let register :=
    create_glue_table_if_not_exists "db_youtube_cleaned" "raw_statistics" "s3://clean/"
                                    [("id", "string")] in
  let other_invocation := fun w => snd (register w) in
  fst (register world_without_table) = Ok tt /\
  fst (create_glue_table_if_not_exists_interleaved other_invocation
         "db_youtube_cleaned" "raw_statistics" "s3://clean/" [("id", "string")]
         world_without_table)
  = Err AlreadyExistsException.
Proof. vm_compute. repeat split. Qed.

(** Against C8: a [None] in a column cast against [boolean] becomes [False]. *)
Lemma none_is_cast_to_false :
  isna (Raw VNone) = true /\
  example_cast nullable_flags [("assignable", "boolean")]
  = Ok [("assignable", [Raw (VBool true); Raw (VBool true); Raw (VBool false)])].
Proof. vm_compute. repeat split. Qed.

(** *** Instances of the conditional statements *)

Lemma cast_frame_unnamed_columns_flags :
  example_cast flags flags_schema = Ok flags_cast /\
  columns flags_cast = columns flags /\
  get_column flags_cast "etag" = option_map (map Raw) (get_column flags "etag").
Proof.
  split; [reflexivity|].
  destruct (cast_frame_unnamed_columns unused_str_of_float unused_to_datetime unused_Int64_error unused_Int64_cell unused_float_cell
              flags flags_schema flags_cast eq_refl) as [Hc Hf].
  split; [exact Hc|]. apply Hf. simpl. intuition discriminate.
Defined.

Lemma boolean_cast_is_truthiness_flags :
  example_cast flags flags_schema = Ok flags_cast /\
  exists out,
    get_column flags_cast "assignable" = Some out /\
    Forall2 (fun (v : value) c => exists b, c = Raw (VBool b) /\ isna c = false)
            [VInt 0; VInt 1; VStr ""; VStr "x"] out /\
    ([VInt 0; VInt 1; VStr ""; VStr "x"] = [VInt 0; VInt 1; VStr ""; VStr "x"] ->
     out = [Raw (VBool false); Raw (VBool true); Raw (VBool false); Raw (VBool true)]).
Proof.
  split; [reflexivity|].
  apply (boolean_cast_is_truthiness unused_str_of_float unused_to_datetime unused_Int64_error unused_Int64_cell unused_float_cell
           flags flags_schema flags_cast "assignable").
  - exact flags_schema_NoDup.
  - simpl. auto.
  - reflexivity.
  - reflexivity.
Defined.

Lemma boolean_cast_of_nulls_nullable_flags :
  example_cast nullable_flags [("assignable", "boolean")]
  = Ok [("assignable", [Raw (VBool true); Raw (VBool true); Raw (VBool false)])] /\
  exists out,
    get_column [("assignable", [Raw (VBool true); Raw (VBool true); Raw (VBool false)])]
               "assignable" = Some out /\
    Forall2 (fun v c =>
               isna c = false /\
               (v = VNaN -> c = Raw (VBool true)) /\
               (v = VNone -> c = Raw (VBool false)))
            [VBool true; VNaN; VNone] out.
Proof.
  split; [reflexivity|].
  apply (boolean_cast_of_nulls unused_str_of_float unused_to_datetime unused_Int64_error unused_Int64_cell unused_float_cell
           nullable_flags [("assignable", "boolean")] _ "assignable").
  - repeat constructor. simpl. tauto.
  - simpl. auto.
  - reflexivity.
  - reflexivity.
Defined.

Lemma string_cast_drops_nullness_flags :
  example_cast flags flags_schema = Ok flags_cast /\
  exists out,
    get_column flags_cast "kind" = Some out /\
    Forall2 (fun v c =>
               (exists s, c = Raw (VStr s)) /\
               isna c = false /\
               (v = VNone -> c = Raw (VStr "None")) /\
               (v = VNaN -> c = Raw (VStr "nan")))
            [VStr "a"; VNaN; VNone; VInt 7] out.
Proof.
  split; [reflexivity|].
  apply (string_cast_drops_nullness unused_str_of_float unused_to_datetime unused_Int64_error unused_Int64_cell unused_float_cell
           flags flags_schema flags_cast "kind").
  - exact flags_schema_NoDup.
  - simpl. auto.
  - reflexivity.
  - reflexivity.
Defined.

Lemma second_registration_changes_nothing_example :
  let register :=
    create_glue_table_if_not_exists "db_youtube_cleaned" "raw_statistics" "s3://clean/"
                                    [("id", "string")] in
  let w1 := snd (register world_without_table) in
  register world_without_table = (Ok tt, w1) /\
  exists w2, register w1 = (Ok tt, w2) /\ glue w2 = glue w1 /\ s3 w2 = s3 w1.
Proof.
  split; [reflexivity|].
  apply (second_registration_changes_nothing
           "db_youtube_cleaned" "raw_statistics" "s3://clean/" [("id", "string")]
           world_without_table).
  reflexivity.
Defined.

Lemma destination_key_replaces_every_json_example :
  let run := example_handler (notification "ref/US.json") world_without_table in
  run = (Ok (success "ref/US.json"), snd run) /\
  exists record rest dest out,
    Records (notification "ref/US.json") = record :: rest /\
    let key := unquote_plus (object_key record) in
    s3 world_without_table !! "clean" = Some dest /\
    s3 (snd run) = <["clean" := <[replace key ".json" ".parquet" := ParquetFile out]> dest]>
                     (s3 world_without_table) /\
    (forall stem, key = (stem ++ ".json")%string -> occurs ".json" stem = false ->
                  replace key ".json" ".parquet" = (stem ++ ".parquet")%string) /\
    (occurs ".json" key = false -> replace key ".json" ".parquet" = key).
Proof.
  split; [vm_compute; reflexivity|].
  apply (destination_key_replaces_every_json unused_str_of_float unused_to_datetime unused_Int64_error unused_Int64_cell unused_float_cell example_arrow_error
           "clean" "db_youtube_cleaned" "raw_statistics"
           (notification "ref/US.json") world_without_table _ (success "ref/US.json")).
  vm_compute. reflexivity.
Defined.

Lemma cast_only_with_fetched_schema_example :
  let run := example_handler (notification "stats/GB.json") world_with_table in
  run = (Ok (success "stats/GB.json"), snd run) /\
  s3 (snd run) !! "clean"
  = Some {[ "stats/GB.parquet" :=
              ParquetFile [("id", [Raw (VInt 1); Raw (VInt 2)]);
                           ("views", [Raw (VInt 1000); NA])] ]} /\
  exists record rest objects content df dest out,
    Records (notification "stats/GB.json") = record :: rest /\
    s3 world_with_table !! bucket_name record = Some objects /\
    objects !! unquote_plus (object_key record) = Some content /\
    read_items content = Ok df /\
    s3 world_with_table !! "clean" = Some dest /\
    s3 (snd run) = <["clean" :=
                     <[replace (unquote_plus (object_key record)) ".json" ".parquet"
                       := ParquetFile out]> dest]> (s3 world_with_table) /\
    match find_table world_with_table "db_youtube_cleaned" "raw_statistics" with
    | Some t => example_cast df (dict_of_columns (Columns t)) = Ok out
    | None =>
        out = untouched df /\
        find_table (snd run) "db_youtube_cleaned" "raw_statistics"
        = Some (table_input "raw_statistics" (s3_location "clean")
                            (infer_glue_schema_from_dataframe df))
    end.
Proof.
  split; [vm_compute; reflexivity|]. split; [vm_compute; reflexivity|].
  apply (cast_only_with_fetched_schema unused_str_of_float unused_to_datetime unused_Int64_error unused_Int64_cell unused_float_cell example_arrow_error
           "clean" "db_youtube_cleaned" "raw_statistics"
           (notification "stats/GB.json") world_with_table _ (success "stats/GB.json")).
  vm_compute. reflexivity.
Defined.

(** *** Instances of the further properties *)

Lemma fetched_schema_is_a_dict_example :
  exists d,
    get_glue_table_schema "db_youtube_cleaned" "raw_statistics" world_with_table
    = (Ok d, world_with_table) /\
    List.NoDup (map fst d) /\
    forall name, dict_get d name = last_type (Columns statistics_table) name.
Proof.
  apply (fetched_schema_is_a_dict "db_youtube_cleaned" "raw_statistics" world_with_table
           statistics_table).
  reflexivity.
Defined.

Lemma cast_total_without_bigint_timestamp_example :
  exists df', example_cast flags [("assignable", "boolean"); ("kind", "string")] = Ok df'.
Proof.
  apply (cast_total_without_bigint_timestamp unused_str_of_float unused_to_datetime unused_Int64_error unused_Int64_cell unused_float_cell).
  simpl. intros name dt [E|[E|[]]]; inversion E; split; discriminate.
Defined.

Lemma cast_leaves_unhandled_types_example :
  example_cast clean_statistics [("id", "int")] = Ok (untouched clean_statistics) /\
  get_column (untouched clean_statistics) "id" = Some (map Raw [VInt 1; VInt 2]).
Proof.
  split; [reflexivity|].
  apply (cast_leaves_unhandled_types unused_str_of_float unused_to_datetime unused_Int64_error unused_Int64_cell unused_float_cell
           clean_statistics [("id", "int")] _ "id" "int").
  - repeat constructor. simpl. tauto.
  - simpl. auto.
  - simpl. intuition discriminate.
  - reflexivity.
  - reflexivity.
Defined.





Lemma registration_keeps_existing_tables_example :
  let run := create_glue_table_if_not_exists "db_youtube_cleaned" "raw_statistics"
               "s3://elsewhere/" [("id", "string")] world_with_table in
  find_table (snd run) "db_youtube_cleaned" "raw_statistics" = Some statistics_table /\
  s3 (snd run) = s3 world_with_table.
Proof.
  apply (registration_keeps_existing_tables "db_youtube_cleaned" "raw_statistics"
           "s3://elsewhere/" [("id", "string")] world_with_table _ (Ok tt)).
  - reflexivity.
  - reflexivity.
Defined.

Lemma invocation_keeps_existing_tables_example :
  find_table (snd (example_handler (notification "stats/US.json") world_with_table))
             "db_youtube_cleaned" "raw_statistics" = Some statistics_table.
Proof.
  apply (invocation_keeps_existing_tables unused_str_of_float unused_to_datetime unused_Int64_error unused_Int64_cell unused_float_cell example_arrow_error
           "clean" "db_youtube_cleaned" "raw_statistics"
           (notification "stats/US.json") world_with_table _ (Err TypeError)).
  - vm_compute. reflexivity.
  - reflexivity.
Defined.

Lemma failed_write_leaves_table_registered_example :
  exists w',
    example_handler {| Records := [source_record "ref/US.json"] |} world_without_destination
    = (Err NoSuchBucket, w') /\
    s3 w' = s3 world_without_destination /\
    find_table w' "db_youtube_cleaned" "raw_statistics"
    = Some (table_input "raw_statistics" (s3_location "clean")
                        (infer_glue_schema_from_dataframe categories)).
Proof.
  apply (failed_write_leaves_table_registered unused_str_of_float unused_to_datetime
           unused_Int64_error unused_Int64_cell unused_float_cell example_arrow_error
           "clean" "db_youtube_cleaned" "raw_statistics"
           (source_record "ref/US.json") [] world_without_destination
           {[ "ref/US.json" := JsonDocument (Ok categories) ]}
           (JsonDocument (Ok categories)) categories ∅);
    reflexivity.
Defined.

Lemma rerun_with_table_changes_nothing_example :
  let w1 := snd (example_handler {| Records := [source_record "stats/GB.json"] |}
                                 world_with_table) in
  example_handler {| Records := [source_record "stats/GB.json"] |} w1
  = (Ok (success "stats/GB.json"), w1).
Proof.
  apply (rerun_with_table_changes_nothing unused_str_of_float unused_to_datetime unused_Int64_error unused_Int64_cell unused_float_cell example_arrow_error
           "clean" "db_youtube_cleaned" "raw_statistics"
           (source_record "stats/GB.json") [] world_with_table _ _ statistics_table).
  - vm_compute. reflexivity.
  - reflexivity.
  - left. discriminate.
Defined.

Lemma rerun_after_registration_casts_example :
  let ev := {| Records := [source_record "ref/US.json"] |} in
  let w1 := snd (example_handler ev world_without_table) in
  exists objects content df out w2,
    s3 world_without_table !! "raw" = Some objects /\
    objects !! "ref/US.json" = Some content /\
    read_items content = Ok df /\
    example_cast df (dict_of_columns (infer_glue_schema_from_dataframe df)) = Ok out /\
    example_handler ev w1 = (Ok (success "ref/US.json"), w2) /\
    glue w2 = glue w1 /\
    (s3 w2 !! "clean") ≫= (fun dest => dest !! "ref/US.parquet") = Some (ParquetFile out).
Proof.
  apply (rerun_after_registration_casts unused_str_of_float unused_to_datetime unused_Int64_error unused_Int64_cell unused_float_cell example_arrow_error
           "clean" "db_youtube_cleaned" "raw_statistics"
           (source_record "ref/US.json") [] world_without_table).
  - vm_compute. reflexivity.
  - reflexivity.
  - left. discriminate.
Defined.

Lemma artifact_can_overwrite_source_example :
  let ev := {| Records := [in_place_record] |} in
  let w1 := snd (example_handler ev world_in_place) in
  exists out w2,
    (s3 w1 !! "clean") ≫= (fun objects => objects !! "ref/US") = Some (ParquetFile out) /\
    example_handler ev w1 = (Err ValueError, w2) /\
    s3 w2 = s3 w1 /\ glue w2 = glue w1.
Proof.
  apply (artifact_can_overwrite_source unused_str_of_float unused_to_datetime unused_Int64_error unused_Int64_cell unused_float_cell example_arrow_error
           "clean" "db_youtube_cleaned" "raw_statistics"
           in_place_record [] world_in_place _ (success "ref/US")).
  - vm_compute. reflexivity.
  - reflexivity.
  - reflexivity.
Defined.

Lemma missing_source_fails_before_catalog_example :
  exists e,
    e = match s3 world_without_table !! "raw" with
        | Some _ => NoSuchKey
        | None => NoSuchBucket
        end /\
    example_handler {| Records := [source_record "ref/GB.json"] |} world_without_table =
    (Err e,
     {| s3 := s3 world_without_table; glue := glue world_without_table;
        stdout := stdout world_without_table
                  ++ [LineExn e; error_line "ref/GB.json" "raw"] |}).
Proof.
  apply (missing_source_fails_before_catalog unused_str_of_float unused_to_datetime unused_Int64_error unused_Int64_cell unused_float_cell example_arrow_error
           "clean" "db_youtube_cleaned" "raw_statistics"
           (source_record "ref/GB.json") [] world_without_table).
  reflexivity.
Defined.

Lemma cast_skips_absent_columns_example :
  example_cast flags [("publishedAt", "timestamp"); ("views", "bigint")] = Ok (untouched flags).
Proof.
  apply (cast_skips_absent_columns unused_str_of_float unused_to_datetime unused_Int64_error unused_Int64_cell unused_float_cell).
  simpl. intros name [<-|[<-|[]]]; reflexivity.
Defined.

Lemma cast_keeps_row_count_example :
  exists col', get_column flags_cast "kind" = Some col' /\ length col' = 4%nat.
Proof.
  apply (cast_keeps_row_count unused_str_of_float unused_to_datetime unused_Int64_error unused_Int64_cell unused_float_cell
           flags flags_schema flags_cast "kind" [VStr "a"; VNaN; VNone; VInt 7]).
  - exact flags_schema_NoDup.
  - simpl. intuition discriminate.
  - reflexivity.
  - reflexivity.
Defined.


Lemma registration_race_raises_example :
  let register :=
    create_glue_table_if_not_exists "db_youtube_cleaned" "raw_statistics" "s3://clean/"
                                    [("id", "string")] in
  let other_invocation := fun w => snd (register w) in
  let asked :=
    with_stdout world_without_table
      (stdout world_without_table
       ++ [Line "Table raw_statistics does not exist. Creating with inferred schema..."]) in
  create_glue_table_if_not_exists_interleaved other_invocation
    "db_youtube_cleaned" "raw_statistics" "s3://clean/" [("id", "string")] world_without_table
  = (Err AlreadyExistsException, other_invocation asked).
Proof.
  apply (registration_race_raises _ "db_youtube_cleaned" "raw_statistics" "s3://clean/"
           [("id", "string")] world_without_table
           (table_input "raw_statistics" "s3://clean/" [("id", "string")])).
  - reflexivity.
  - reflexivity.
Defined.

(** *** Instances of the step-by-step statements *)

Lemma invocation_writes_all_or_nothing_example :
  example_handler (notification "stats/US.json") world_with_table
  = reraised "stats/US.json" "raw" TypeError world_with_table /\
  example_handler (notification "stats/GB.json") world_with_table
  = (Ok (success "stats/GB.json"),
     with_s3 world_with_table
       (<["clean" := {[ "stats/GB.parquet" :=
                          ParquetFile [("id", [Raw (VInt 1); Raw (VInt 2)]);
                                       ("views", [Raw (VInt 1000); NA])] ]}]>
          (s3 world_with_table))).
Proof.
  split.
  - destruct (invocation_writes_all_or_nothing unused_str_of_float unused_to_datetime
                unused_Int64_error unused_Int64_cell unused_float_cell example_arrow_error
                "clean" "db_youtube_cleaned" "raw_statistics"
                (notification "stats/US.json") world_with_table) as [_ H].
    rewrite (H (source_record "stats/US.json") [] eq_refl). reflexivity.
  - destruct (invocation_writes_all_or_nothing unused_str_of_float unused_to_datetime
                unused_Int64_error unused_Int64_cell unused_float_cell example_arrow_error
                "clean" "db_youtube_cleaned" "raw_statistics"
                (notification "stats/GB.json") world_with_table) as [_ H].
    rewrite (H (source_record "stats/GB.json") [] eq_refl). reflexivity.
Defined.

Lemma only_first_record_is_processed_example :
  example_handler {| Records := [source_record "stats/GB.json";
                                 source_record "stats/US.json";
                                 source_record "ref/GB.json"] |} world_with_table
  = (Ok (success "stats/GB.json"),
     with_s3 world_with_table
       (<["clean" := {[ "stats/GB.parquet" :=
                          ParquetFile [("id", [Raw (VInt 1); Raw (VInt 2)]);
                                       ("views", [Raw (VInt 1000); NA])] ]}]>
          (s3 world_with_table))).
Proof.
  destruct (only_first_record_is_processed unused_str_of_float unused_to_datetime
              unused_Int64_error unused_Int64_cell unused_float_cell example_arrow_error
              "clean" "db_youtube_cleaned" "raw_statistics"
              (source_record "stats/GB.json")
              [source_record "stats/US.json"; source_record "ref/GB.json"]
              world_with_table) as (_ & _ & _ & _ & H & _).
  rewrite (H (JsonDocument (Ok clean_statistics)) clean_statistics statistics_table
             [("id", [Raw (VInt 1); Raw (VInt 2)]); ("views", [Raw (VInt 1000); NA])]);
    reflexivity.
Defined.
